(** * cpu-gpu-lp-benchmark: the result scripts, embedded and checked

    The repository holds four Python scripts.  [parse_cuopt_results.py]
    turns cuOpt logs into result dictionaries, [gurobi_benchmark.py]
    produces the same dictionaries from Gurobi runs, [compare_results.py]
    joins the two CSV files and [summary.py] prints aggregate figures.

    Each script is embedded below in a module of its own.  Python
    dictionaries with a fixed key set become records, code that mutates
    the [result] dictionary inside [try]/[except] runs in a state and
    exception monad, and regular expressions become explicit scanners.
    A data frame is the list of its rows as [pd.read_csv] has loaded
    them; a statement of pandas that may raise returns an exception or
    a value, and [analyze_comparison] runs its statements in the order
    of the source until the first one raises. *)

From stdpp Require Import base option list sorting strings gmap.
From Stdlib Require Import Ascii QArith.

Open Scope string_scope.

(** ** Python values *)

Module Py.

(** A Python float.  A finite float is represented by the rational it
    denotes, so rounding is not modelled; [NaN] and the two infinities
    are kept apart because comparisons treat them differently. *)
Inductive pyfloat :=
| NaN
| Inf (negative : bool)
| Fin (q : Q).

Definition Qlt_bool (x y : Q) : bool :=
  match (x ?= y)%Q with Lt => true | _ => false end.

(** [a < b] on floats: every comparison with [NaN] is false. *)
Definition float_lt (a b : pyfloat) : bool :=
  match a, b with
  | NaN, _ | _, NaN => false
  | Fin x, Fin y => Qlt_bool x y
  | Inf true, Inf true => false
  | Inf true, _ => true
  | Inf false, _ => false
  | Fin _, Inf negative => negb negative
  end.

(** [a > b] is [b < a]. *)
Definition float_gt (a b : pyfloat) : bool := float_lt b a.

(** Exceptions carry the text that [str(e)] returns. *)
Record exn := Exception { str : string }.

(** An expression that returns a value or raises. *)
#[export] Instance exn_ret : MRet (sum exn) := λ A x, inr x.
#[export] Instance exn_bind : MBind (sum exn) := λ A B f m,
  match m with
  | inl e => inl e
  | inr x => f x
  end.
#[export] Instance exn_fmap : FMap (sum exn) := λ A B f m,
  match m with
  | inl e => inl e
  | inr x => inr (f x)
  end.

Definition Qis_zero (x : Q) : bool := Qeq_bool x 0.

Definition is_zero (a : pyfloat) : bool :=
  match a with
  | Fin x => Qis_zero x
  | _ => false
  end.

(** [a / b] on numpy scalars: a zero divisor gives [nan] or an
    infinity (with a warning), it does not raise. *)
Definition np_divide (a b : pyfloat) : pyfloat :=
  match a, b with
  | NaN, _ | _, NaN => NaN
  | Inf _, Inf _ => NaN
  | Fin _, Inf _ => Fin 0
  | Inf negative, Fin y => Inf (xorb negative (Qlt_bool y 0))
  | Fin x, Fin y =>
      if Qis_zero y then
        if Qis_zero x then NaN else Inf (Qlt_bool x 0)
      else Fin (x / y)
  end.

(** [a / b] on Python floats: a zero divisor raises
    [ZeroDivisionError]. *)
Definition float_div (a b : pyfloat) : exn + pyfloat :=
  if is_zero b then inl (Exception "float division by zero")
  else inr (np_divide a b).

(** [a * b] *)
Definition float_mul (a b : pyfloat) : pyfloat :=
  match a, b with
  | NaN, _ | _, NaN => NaN
  | Inf s, Inf t => Inf (xorb s t)
  | Inf s, Fin y | Fin y, Inf s =>
      if Qis_zero y then NaN else Inf (xorb s (Qlt_bool y 0))
  | Fin x, Fin y => Fin (x * y)
  end.

(** [a + b] *)
Definition float_add (a b : pyfloat) : pyfloat :=
  match a, b with
  | NaN, _ | _, NaN => NaN
  | Inf s, Inf t => if Bool.eqb s t then Inf s else NaN
  | Inf s, Fin _ | Fin _, Inf s => Inf s
  | Fin x, Fin y => Fin (x + y)
  end.

(** A cell of a data frame loaded by [pd.read_csv]. *)
Inductive cell :=
| CFloat (f : pyfloat)
| CInt (n : Z)
| CStr (s : string).

(** The [status] entry of a result dictionary: [None], an integer code
    or a string (only ["ERROR"] is ever stored). *)
Inductive status_val :=
| StNone
| StInt (n : Z)
| StStr (s : string).

(** The [objective] entry: [None], a string (the token of the log, or
    ["N/A"]) or a float (Gurobi's [ObjVal]). *)
Inductive objective_val :=
| ObjNone
| ObjStr (s : string)
| ObjFloat (f : pyfloat).

(** The [result] dictionary built by both producers; its five keys are
    fixed at creation. *)
Record result := Result {
  model_name : string;
  solve_time : option pyfloat;
  status : status_val;
  objective : objective_val;
  error : option string
}.

(** [result = {'model_name': model_name, 'solve_time': None, ...}] *)
Definition new_result (name : string) : result :=
  {| model_name := name; solve_time := None; status := StNone;
     objective := ObjNone; error := None |}.

(** *** Statements that mutate [result] and may raise *)

Definition M (A : Type) : Type := result → (exn + A) * result.

#[export] Instance M_ret : MRet M := λ A x st, (inr x, st).
#[export] Instance M_bind : MBind M := λ A B f m st,
  match m st with
  | (inl e, st') => (inl e, st')
  | (inr x, st') => f x st'
  end.

(** The outcome of a call into the outside world (file system, solver)
    is given beforehand; [call] raises or returns accordingly. *)
Definition call {A} (outcome : exn + A) : M A := λ st, (outcome, st).

Definition set_solve_time (v : option pyfloat) : M unit := λ st,
  (inr (), {| model_name := model_name st; solve_time := v;
              status := status st; objective := objective st;
              error := error st |}).

Definition set_status (v : status_val) : M unit := λ st,
  (inr (), {| model_name := model_name st; solve_time := solve_time st;
              status := v; objective := objective st;
              error := error st |}).

Definition set_objective (v : objective_val) : M unit := λ st,
  (inr (), {| model_name := model_name st; solve_time := solve_time st;
              status := status st; objective := v;
              error := error st |}).

Definition set_error (v : option string) : M unit := λ st,
  (inr (), {| model_name := model_name st; solve_time := solve_time st;
              status := status st; objective := objective st;
              error := v |}).

(** [try: body except Exception as e: handler(e)]; the handler sees the
    dictionary as the body left it. *)
Definition try_except (body : M unit) (handler : exn → M unit) : M unit :=
  λ st,
    match body st with
    | (inl e, st') => handler e st'
    | (inr x, st') => (inr x, st')
    end.

(** The dictionary after running [m] on [st]; [m] is a statement whose
    exceptions have all been handled. *)
Definition run (m : M unit) (st : result) : result := snd (m st).

End Py.

(** ** Regular expressions of the log parser *)

Module Re.

Definition code (c : ascii) : N := N_of_ascii c.

Definition between (lo hi : N) (c : ascii) : bool :=
  ((lo <=? code c) && (code c <=? hi))%N.

(** For a [str] pattern the classes [\d], [\w] and [\s] of Python's [re]
    are Unicode classes.  They are modelled on the ASCII range, where
    the logs of cuOpt live: a character above 127 is taken to belong to
    none of them, so the scanners below follow Python on texts of ASCII
    characters. *)

(** [\d] *)
Definition is_digit (c : ascii) : bool := between 48 57 c.

(** [\s]: tab, line feed, vertical tab, form feed, carriage return, the
    four separators 28 to 31, and space. *)
Definition is_space (c : ascii) : bool := between 9 13 c || between 28 32 c.

(** [\S] *)
Definition is_nonspace (c : ascii) : bool := negb (is_space c).

(** [\w] *)
Definition is_word (c : ascii) : bool :=
  is_digit c || between 65 90 c || between 97 122 c || (code c =? 95)%N.

(** [[\d,\.]] *)
Definition is_time_char (c : ascii) : bool :=
  is_digit c || (code c =? 44)%N || (code c =? 46)%N.

(** The longest prefix of [s] whose characters satisfy [p], and the
    rest of [s]. *)
Fixpoint span (p : ascii → bool) (s : string) : string * string :=
  match s with
  | EmptyString => (EmptyString, EmptyString)
  | String c s' =>
      if p c then let '(m, r) := span p s' in (String c m, r)
      else (EmptyString, s)
  end.

(** A literal piece of a pattern: what is left of [s] after [lit]. *)
Fixpoint literal (lit s : string) : option string :=
  match lit with
  | EmptyString => Some s
  | String a lit' =>
      match s with
      | EmptyString => None
      | String c s' => if decide (a = c) then literal lit' s' else None
      end
  end.

(** [X*] for a character class [X], greedy. *)
Definition star (p : ascii → bool) (s : string) : string * string :=
  span p s.

(** [X+] for a character class [X], greedy. *)
Definition plus (p : ascii → bool) (s : string) : option (string * string) :=
  match span p s with
  | (EmptyString, _) => None
  | (m, r) => Some (m, r)
  end.

(** [re.search]: the match at the leftmost position where the pattern
    matches. *)
Fixpoint search {A} (pattern : string → option A) (s : string) : option A :=
  match pattern s with
  | Some m => Some m
  | None =>
      match s with
      | EmptyString => None
      | String _ s' => search pattern s'
      end
  end.

End Re.

(** ** parse_cuopt_results.py *)

Module ParseCuopt.
Import Py Re.

(** [r'Concurrent time:\s*([\d,\.]+s),\s*total time\s*([\d,\.]+s)']
    matched at the start of [s]; the value holds groups 1 and 2.  In
    this pattern every repetition is followed by a character outside
    its class, so the greedy choice is the only one that can match and
    no backtracking is needed. *)
Definition concurrent_pattern (s : string) : option (string * string) :=
  s ← literal "Concurrent time:" s;
  let s := snd (star is_space s) in
  '(d1, s) ← plus is_time_char s;
  s ← literal "s" s;
  s ← literal "," s;
  let s := snd (star is_space s) in
  s ← literal "total time" s;
  let s := snd (star is_space s) in
  '(d2, s) ← plus is_time_char s;
  s ← literal "s" s;
  Some (d1 +:+ "s", d2 +:+ "s").

(** [r'Status:\s*(\w+)\s+Objective:\s*(\S+)\s+Iterations:\s*\d+']
    matched at the start of [s]; the value holds groups 1 and 2. *)
Definition status_pattern (s : string) : option (string * string) :=
  s ← literal "Status:" s;
  let s := snd (star is_space s) in
  '(w, s) ← plus is_word s;
  '(_, s) ← plus is_space s;
  s ← literal "Objective:" s;
  let s := snd (star is_space s) in
  '(o, s) ← plus is_nonspace s;
  '(_, s) ← plus is_space s;
  s ← literal "Iterations:" s;
  let s := snd (star is_space s) in
  '(_, s) ← plus is_digit s;
  Some (w, o).

(** [s.endswith('s')] *)
Fixpoint endswith_s (s : string) : bool :=
  match s with
  | EmptyString => false
  | String c EmptyString => bool_decide (c = "s"%char)
  | String _ s' => endswith_s s'
  end.

(** [s[:-1]] *)
Fixpoint drop_last (s : string) : string :=
  match s with
  | EmptyString => EmptyString
  | String _ EmptyString => EmptyString
  | String c s' => String c (drop_last s')
  end.

(** [s.replace(',', '')] *)
Fixpoint remove_commas (s : string) : string :=
  match s with
  | EmptyString => EmptyString
  | String c s' =>
      if decide (c = ","%char) then remove_commas s'
      else String c (remove_commas s')
  end.

(** ['Limit' in status] and the like. *)
Fixpoint contains (sub s : string) : bool :=
  String.prefix sub s ||
  match s with
  | EmptyString => false
  | String _ s' => contains sub s'
  end.

Fixpoint digits_value (acc : N) (s : string) : N :=
  match s with
  | EmptyString => acc
  | String c s' => digits_value (10 * acc + (code c - 48))%N s'
  end.

Definition pow10 (k : nat) : positive := Nat.iter k (Pos.mul 10) 1%positive.

(** [float(s)] on a text made of digits and dots, the only texts that
    reach it here: group 2 of [concurrent_pattern] admits digits,
    commas and dots, and the commas are removed before the call.  Such
    a text is a float literal when it has at least one digit and at
    most one dot; any other text raises [ValueError]. *)
Definition py_float (s : string) : exn + pyfloat :=
  let bad := inl (Exception ("could not convert string to float: '" +:+ s +:+ "'")) in
  let '(ip, rest) := span is_digit s in
  match rest with
  | EmptyString =>
      match ip with
      | EmptyString => bad
      | _ => inr (Fin (Z.of_N (digits_value 0 ip) # 1))
      end
  | String c fs =>
      if decide (c = "."%char) then
        let '(fp, rest') := span is_digit fs in
        match rest', ip +:+ fp with
        | EmptyString, String _ _ =>
            inr (Fin (Z.of_N (digits_value 0 (ip +:+ fp)) # pow10 (String.length fp)))
        | _, _ => bad
        end
      else bad
  end.

(** Every character of [s] satisfies [p]. *)
Fixpoint all_chars (p : ascii → bool) (s : string) : bool :=
  match s with
  | EmptyString => true
  | String c s' => p c && all_chars p s'
  end.

Definition digit_or_dot (c : ascii) : bool :=
  is_digit c || bool_decide (c = "."%char).

(** [status_map] of lines 54 to 60. *)
Definition status_map : gmap string Z :=
  <["Optimal" := 2%Z]> (<["Time" := 9%Z]> (<["Infeasible" := 3%Z]>
    (<["Unbounded" := 5%Z]> (<["Unknown" := 11%Z]> ∅)))).

(** Lines 62 to 66: a token containing ["Limit"] is replaced by
    ["Time Limit"], then [status_map.get(status, 11)]. *)
Definition status_code (status : string) : Z :=
  let status := if contains "Limit" status then "Time Limit" else status in
  default 11%Z (status_map !! status).

(** Lines 44 to 46: the trailing [s] is cut off and the commas are
    removed. *)
Definition total_time_clean (total_time_str : string) : string :=
  let total_time_str :=
    if endswith_s total_time_str then drop_last total_time_str
    else total_time_str in
  remove_commas total_time_str.

(** The body of the [try] block, lines 28 to 71.  [file] is the outcome
    of opening and reading the log. *)
Definition parse_body (file : exn + string) : M unit :=
  content ← call file;
  let concurrent_match := search concurrent_pattern content in
  let status_match := search status_pattern content in
  match concurrent_match, status_match with
  | Some cm, Some sm =>
      let total_time_str := snd cm in
      t ← call (py_float (total_time_clean total_time_str));
      set_solve_time (Some t);;
      let status := fst sm in
      let objective := snd sm in
      set_status (StInt (status_code status));;
      set_objective (ObjStr objective)
  | _, _ =>
      set_status (StStr "ERROR");;
      set_error (Some "No concurrent and status lines found in log")
  end.

(** [parse_cuopt_log]; [name] is [Path(log_file_path).stem]. *)
Definition parse_cuopt_log (name : string) (file : exn + string) : result :=
  run (try_except (parse_body file)
         (λ e, set_status (StStr "ERROR");; set_error (Some (str e))))
      (new_result name).

(** The record that both failure paths leave behind: nothing but the
    name, the status ["ERROR"] and a message. *)
Definition error_record (name msg : string) : result :=
  {| model_name := name; solve_time := None; status := StStr "ERROR";
     objective := ObjNone; error := Some msg |}.

(** A record as the success path leaves it: a numeric status among the
    five codes, no error text and a solve time that is a number not
    below zero. *)
Definition solved_record (r : result) : Prop :=
  (∃ n, status r = StInt n ∧ n ∈ [2; 3; 5; 9; 11]%Z) ∧
  error r = None ∧
  ∃ q, solve_time r = Some (Fin q) ∧ (0 <= q)%Q.

(** The loop of [main], lines 101 to 105: one result per log file, in
    the order of the files. *)
Definition main_results (log_files : list (string * (exn + string))) : list result :=
  (λ f, parse_cuopt_log (fst f) (snd f)) <$> log_files.

(** *** Sample logs *)

Definition newline : string := String "010"%char EmptyString.

(** A run that stopped at the time limit. *)
Definition limit_log : string :=
  "Concurrent time: 600.001s, total time 600.120s" +:+ newline +:+
  "Status: TimeLimit   Objective: 1.25e+03   Iterations: 90210" +:+ newline.

(** Both lines are there, but the total time is not a number. *)
Definition garbled_time_log : string :=
  "Concurrent time: 0.479s, total time 1.2.3s" +:+ newline +:+
  "Status: Optimal   Objective: 2.87906569e+03   Iterations: 277" +:+ newline.

(** The status is written in two words. *)
Definition two_word_limit_log : string :=
  "Concurrent time: 600.001s, total time 600.120s" +:+ newline +:+
  "Status: Time Limit   Objective: 1.25e+03   Iterations: 90210" +:+ newline.

(** The example of the documentation of the patterns. *)
Definition optimal_log : string :=
  "Concurrent time: 0.479s, total time 0.522s" +:+ newline +:+
  "Status: Optimal   Objective: 2.87906569e+03   Iterations: 277" +:+ newline.

End ParseCuopt.

(** ** gurobi_benchmark.py *)

Module GurobiBenchmark.
Import Py.

(** [GRB.OPTIMAL] and [GRB.TIME_LIMIT]. *)
Definition OPTIMAL : Z := 2.
Definition TIME_LIMIT : Z := 9.

(** What the Gurobi library does during one call of
    [solve_mps_with_gurobi]: every step either raises or returns.  The
    attributes of the model keep their value between two reads. *)
Record gurobi := Gurobi {
  read : exn + unit;          (* line 31 *)
  relax : exn + unit;         (* lines 34 to 37 *)
  setParams : exn + unit;     (* lines 40 to 43 *)
  optimize : exn + unit;      (* line 46 *)
  Runtime : exn + pyfloat;
  Status : exn + Z;
  ObjVal : exn + option pyfloat
}.

Definition objective_of (v : option pyfloat) : objective_val :=
  match v with
  | Some f => ObjFloat f
  | None => ObjNone
  end.

(** The body of the [try] block, lines 31 to 57. *)
Definition solve_body (g : gurobi) : M unit :=
  call (read g);;
  call (relax g);;
  call (setParams g);;
  call (optimize g);;
  t ← call (Runtime g);
  set_solve_time (Some t);;
  s ← call (Status g);
  set_status (StInt s);;
  s ← call (Status g);
  if decide (s = OPTIMAL) then
    v ← call (ObjVal g);
    set_objective (objective_of v)
  else
    s ← call (Status g);
    if decide (s = TIME_LIMIT) then
      v ← call (ObjVal g);
      match v with
      | Some _ => v' ← call (ObjVal g); set_objective (objective_of v')
      | None => set_objective (ObjStr "N/A")
      end
    else set_objective (ObjStr "N/A").

(** [solve_mps_with_gurobi]; [name] is [Path(mps_file_path).stem].  The
    handler stores the error text first and the status second. *)
Definition solve_mps_with_gurobi (name : string) (g : gurobi) : result :=
  run (try_except (solve_body g)
         (λ e, set_error (Some (str e));; set_status (StStr "ERROR")))
      (new_result name).

(** *** Sample runs *)

(** The time limit is hit before any solution is known, and reading
    [ObjVal] raises. *)
Definition no_solution_run : gurobi :=
  {| read := inr (); relax := inr (); setParams := inr (); optimize := inr ();
     Runtime := inr (Fin 600); Status := inr TIME_LIMIT;
     ObjVal := inl (Exception "Unable to retrieve attribute 'ObjVal'") |}.

(** An optimal run. *)
Definition optimal_run : gurobi :=
  {| read := inr (); relax := inr (); setParams := inr (); optimize := inr ();
     Runtime := inr (Fin (3 # 2)); Status := inr OPTIMAL;
     ObjVal := inr (Some (Fin 1)) |}.

End GurobiBenchmark.

(** ** compare_results.py *)

Module CompareResults.
Import Py.

(** A cell of the [model_name] column.  The column holds texts (the
    producers store file names in it), so it has the object dtype and a
    cell is the text of the field, or [NaN] where the field is empty or
    is one of the texts that [pd.read_csv] takes for a missing value
    ([NA], [N/A], [NaN], [null], [None], ...).  [NoName] is that [NaN];
    in a column of the object dtype it is one and the same Python
    object in every cell. *)
Inductive name :=
| NoName
| Name (s : string).

#[export] Instance name_eq_dec : EqDecision name.
Proof. solve_decision. Defined.

#[export] Instance name_countable : Countable name.
Proof.
  refine (inj_countable'
            (λ n, match n with NoName => None | Name s => Some s end)
            (λ o, match o with None => NoName | Some s => Name s end) _).
  by intros [].
Defined.

(** [a == b] on two cells of the column: two texts are compared, and
    [NaN] equals nothing, not even [NaN]. *)
Definition name_eqb (a b : name) : bool :=
  match a, b with
  | Name s, Name t => bool_decide (s = t)
  | _, _ => false
  end.

(** A row of [cuopt_df] or [gurobi_df].  The [solve_time] column is
    numeric.  Its cells have type [option] because the code tests them
    against [None]; [pd.read_csv] itself never stores [None]: an empty
    field, which is how the producers' [None] is written, is loaded as
    [missing]. *)
Record row := Row {
  model_name : name;
  solve_time : option pyfloat;
  status : cell;
  objective : cell;
  error : cell
}.

Definition missing : option pyfloat := Some NaN.

(** An entry of [comparison_data], lines 154 to 166.  [cmp_model_name]
    is the key ['model_name']. *)
Record comparison := Comparison {
  cmp_model_name : name;
  cuopt_solve_time : option pyfloat;
  cuopt_status : cell;
  cuopt_objective : cell;
  cuopt_error : cell;
  gurobi_solve_time : option pyfloat;
  gurobi_status : cell;
  gurobi_objective : cell;
  gurobi_error : cell;
  speedup : option pyfloat;
  winner : string
}.

(** The order in which a [for] loop visits a Python set of names.  It
    depends on the hash values of the strings, which CPython salts with
    a seed chosen when the process starts; all that is fixed is that
    every element is visited once.  A set that is not modified is
    visited in the same order by every loop of one run. *)
Record set_order := SetOrder {
  iter : gset name → list name;
  iter_perm : ∀ X, iter X ≡ₚ elements X
}.

(** Two iteration orders, one the reverse of the other. *)
Definition forward_order : set_order :=
  {| iter := elements; iter_perm := λ X, Permutation_refl (elements X) |}.
Definition backward_order : set_order :=
  {| iter := λ X, reverse (elements X);
     iter_perm := λ X, reverse_Permutation (elements X) |}.

(** [set(df['model_name'])]; the [NaN] of the column is a member like
    any other object. *)
Definition names (df : list row) : gset name :=
  list_to_set (model_name <$> df).

(** [df[df['model_name'] == model]]: no row is selected for [NaN]. *)
Definition select (df : list row) (model : name) : list row :=
  filter (λ r, name_eqb (model_name r) model) df.

(** [.iloc[0]]: the first row; [IndexError] when there is none. *)
Definition iloc0 (rows : list row) : exn + row :=
  match rows with
  | r :: _ => inr r
  | [] => inl (Exception "single positional indexer is out-of-bounds")
  end.

(** [a is not None and b is not None and test(a, b)] *)
Definition both_and (a b : option pyfloat) (test : pyfloat → pyfloat → bool) : bool :=
  match a, b with
  | Some x, Some y => test x y
  | _, _ => false
  end.

(** Line 164, the value of ['speedup']; [c] and [g] are
    [cuopt_row['solve_time']] and [gurobi_row['solve_time']]. *)
Definition speedup_of (c g : option pyfloat) : exn + option pyfloat :=
  match c, g with
  | Some c', Some g' =>
      if float_gt c' (Fin 0) then Some <$> float_div g' c' else inr None
  | _, _ => inr None
  end.

(** Line 165, the value of ['winner']. *)
Definition winner_of (c g : option pyfloat) : string :=
  if both_and c g (λ c' g', float_lt c' g') then "cuOpt"
  else if both_and c g (λ c' g', float_lt g' c') then "Gurobi"
  else if both_and c g (λ _ _, true) then "Tie"
  else "N/A".

(** The body of the loop, lines 151 to 166. *)
Definition compare_one (cuopt_df gurobi_df : list row) (model : name)
  : exn + comparison :=
  cuopt_row ← iloc0 (select cuopt_df model);
  gurobi_row ← iloc0 (select gurobi_df model);
  s ← speedup_of (solve_time cuopt_row) (solve_time gurobi_row);
  mret {| cmp_model_name := model;
          cuopt_solve_time := solve_time cuopt_row;
          cuopt_status := status cuopt_row;
          cuopt_objective := objective cuopt_row;
          cuopt_error := error cuopt_row;
          gurobi_solve_time := solve_time gurobi_row;
          gurobi_status := status gurobi_row;
          gurobi_objective := objective gurobi_row;
          gurobi_error := error gurobi_row;
          speedup := s;
          winner := winner_of (solve_time cuopt_row) (solve_time gurobi_row) |}.

(** Line 63. *)
Definition common_models (cuopt_df gurobi_df : list row) : gset name :=
  names cuopt_df ∩ names gurobi_df.

(** The loop of lines 149 to 166 on its own: one entry per element of
    [common_models], in the order in which the set is iterated.  The
    loop raises [IndexError] when both files hold a missing name.  What
    [analyze_comparison] does before it reaches the loop is modelled in
    [CompareAnalysis] below. *)
Definition comparison_data (o : set_order) (cuopt_df gurobi_df : list row)
  : exn + list comparison :=
  mapM (compare_one cuopt_df gurobi_df) (iter o (common_models cuopt_df gurobi_df)).

(** The rows of [df] whose key is the key [k]; [pd.merge] matches a
    missing key with a missing key. *)
Definition with_key (df : list row) (k : name) : list row :=
  filter (λ r, model_name r = k) df.

(** Lines 67 to 72, [pd.merge(..., on='model_name')] with the default
    [how='inner']: one merged row for every pair of a cuOpt row and a
    Gurobi row of the same key, in the order of the cuOpt rows.  A merged
    row is kept as the pair of rows it was made from. *)
Definition merged_df (cuopt_df gurobi_df : list row) : list (row * row) :=
  l ← cuopt_df; (λ r, (l, r)) <$> with_key gurobi_df (model_name l).

(** [r] is the first row of [df] whose name equals [model]. *)
Definition first_row (df : list row) (model : name) (r : row) : Prop :=
  ∃ before after,
    df = (before ++ r :: after)%list ∧
    name_eqb (model_name r) model = true ∧
    Forall (λ r', name_eqb (model_name r') model = false) before.

(** [r] is the last row of [df] whose name equals [model]. *)
Definition last_row (df : list row) (model : name) (r : row) : Prop :=
  ∃ before after,
    df = (before ++ r :: after)%list ∧
    name_eqb (model_name r) model = true ∧
    Forall (λ r', name_eqb (model_name r') model = false) after.


(** *** Sample data frames *)

(** In a file that has an [ERROR] row the status column is loaded as
    text, so the code 2 is the cell [CStr "2"]. *)
Definition solved_row (name : string) (t : Q) : row :=
  {| model_name := Name name; solve_time := Some (Fin t); status := CStr "2";
     objective := CFloat (Fin 1); error := CFloat NaN |}.

(** A row as an [ERROR] record of a producer comes back from the CSV
    file: the solve time and the objective are empty fields. *)
Definition error_row (name msg : string) : row :=
  {| model_name := Name name; solve_time := missing; status := CStr "ERROR";
     objective := CFloat NaN; error := CStr msg |}.

Definition no_markers : string := "No concurrent and status lines found in log".

(** [p1] is known to cuOpt only, [p3] to Gurobi only. *)
Definition cuopt_p1_p2 : list row :=
  [solved_row "p1" 2; error_row "p2" no_markers].
Definition gurobi_p2_p3 : list row :=
  [solved_row "p2" 4; error_row "p3" "Unable to read file"].

(** cuOpt left no timing for [p1]; Gurobi solved it in a second and a
    half. *)
Definition cuopt_failed_p1 : list row := [error_row "p1" no_markers].
Definition gurobi_solved_p1 : list row :=
  [solved_row "p1" (3 # 2); error_row "p2" "Unable to read file"].

(** [p1] occurs twice. *)
Definition cuopt_twice_p1 : list row :=
  [solved_row "p1" 1; solved_row "p1" 2; error_row "p2" no_markers].

(** Two common models. *)
Definition cuopt_a_b : list row :=
  [solved_row "a" 1; solved_row "b" 2; error_row "c" no_markers].
Definition gurobi_a_b : list row :=
  [solved_row "a" 3; solved_row "b" 4; error_row "d" "Unable to read file"].

(** Two files whose status columns hold integers only: no run failed,
    so [pd.read_csv] loads the columns as numbers. *)
Definition int_row (name : string) (t : Q) : row :=
  {| model_name := Name name; solve_time := Some (Fin t); status := CInt 2;
     objective := CFloat (Fin 1); error := CFloat NaN |}.

(** A row whose name field is the text [NA]. *)
Definition nameless_row (t : Q) : row :=
  {| model_name := NoName; solve_time := Some (Fin t); status := CStr "2";
     objective := CFloat (Fin 1); error := CFloat NaN |}.

End CompareResults.

(** ** summary.py *)

Module Summary.
Import Py.

(** The columns of [comparison_df] that the statistics read.  The file
    is loaded by [pd.read_csv], so a missing speed-up is [NaN] and the
    winner ["N/A"] comes back as a [NaN] cell. *)
Record comparison_row := ComparisonRow {
  winner : cell;
  speedup : pyfloat
}.

(** [column == n], for one cell. *)
Definition cell_eq_int (c : cell) (n : Z) : bool :=
  match c with
  | CInt m => bool_decide (m = n)
  | CFloat (Fin q) => Qeq_bool q (inject_Z n)
  | _ => false
  end.

(** [column == s], for one cell. *)
Definition cell_eq_str (c : cell) (s : string) : bool :=
  match c with
  | CStr t => bool_decide (t = s)
  | _ => false
  end.

(** [(mask).sum()] and [len(df)] as floats. *)
Definition count {A} (p : A → bool) (l : list A) : pyfloat :=
  Fin (inject_Z (Z.of_nat (length (filter (λ x, p x) l)))).
Definition len {A} (l : list A) : pyfloat :=
  Fin (inject_Z (Z.of_nat (length l))).

(** Lines 21 and 22: [(df['status'] == 2).sum() / len(df) * 100].  The
    sum is a numpy integer, so the division is numpy's. *)
Definition success_rate (statuses : list cell) : pyfloat :=
  float_mul (np_divide (count (λ c, cell_eq_int c 2) statuses) (len statuses))
            (Fin 100).

(** [Series.mean()]: the values that are not [NaN] are averaged; the
    result is [NaN] when there is none. *)
Definition notna (f : pyfloat) : bool :=
  match f with
  | NaN => false
  | _ => true
  end.

Definition dropna (l : list pyfloat) : list pyfloat :=
  filter (λ f, notna f) l.

Definition mean (l : list pyfloat) : pyfloat :=
  match dropna l with
  | [] => NaN
  | v => np_divide (foldr float_add (Fin 0) v) (len v)
  end.

(** [a <= b] for floats that are not [NaN]. *)
Definition float_le (a b : pyfloat) : Prop := negb (float_lt b a).

#[export] Instance float_le_dec a b : Decision (float_le a b).
Proof. unfold float_le. apply _. Defined.

(** [Series.median()]: the middle of the sorted values that are not
    [NaN], the mean of the two middle ones when their number is even;
    [NaN] when there is none. *)
Definition median (l : list pyfloat) : pyfloat :=
  let v := merge_sort float_le (dropna l) in
  let n := length v in
  match v with
  | [] => NaN
  | _ =>
      if Nat.even n then
        np_divide (float_add (default NaN (v !! (n / 2 - 1)%nat))
                             (default NaN (v !! (n / 2)%nat))) (Fin 2)
      else default NaN (v !! (n / 2)%nat)
  end.

(** What lines 41 to 46 print. *)
Record performance := Performance {
  both_solved_len : pyfloat;
  cuopt_faster : pyfloat;
  gurobi_faster : pyfloat;
  ties : pyfloat;
  cuopt_faster_pct : pyfloat;
  gurobi_faster_pct : pyfloat;
  ties_pct : pyfloat;
  avg_speedup : pyfloat;
  median_speedup : pyfloat
}.

(** The figures of the report that are rates or means. *)
Record report := Report {
  cuopt_success_rate : pyfloat;
  gurobi_success_rate : pyfloat;
  perf : option performance
}.

(** Lines 29 to 31. *)
Definition both_solved (comparison_df : list comparison_row) : list comparison_row :=
  filter (λ r, cell_eq_str (winner r) "cuOpt" || cell_eq_str (winner r) "Gurobi")
         comparison_df.

(** Lines 33 to 46. *)
Definition performance_of (comparison_df : list comparison_row) : option performance :=
  let both_solved := both_solved comparison_df in
  if bool_decide (0 < length both_solved)%nat then
    let cuopt_faster := count (λ r, cell_eq_str (winner r) "cuOpt") both_solved in
    let gurobi_faster := count (λ r, cell_eq_str (winner r) "Gurobi") both_solved in
    let ties := count (λ r, cell_eq_str (winner r) "Tie") both_solved in
    Some {| both_solved_len := len both_solved;
            cuopt_faster := cuopt_faster;
            gurobi_faster := gurobi_faster;
            ties := ties;
            cuopt_faster_pct :=
              float_mul (np_divide cuopt_faster (len both_solved)) (Fin 100);
            gurobi_faster_pct :=
              float_mul (np_divide gurobi_faster (len both_solved)) (Fin 100);
            ties_pct := float_mul (np_divide ties (len both_solved)) (Fin 100);
            avg_speedup := mean (speedup <$> both_solved);
            median_speedup := median (speedup <$> both_solved) |}
  else None.

(** [main], lines 11 to 46, as a function of the three files. *)
Definition main (cuopt_status gurobi_status : list cell)
    (comparison_df : list comparison_row) : report :=
  {| cuopt_success_rate := success_rate cuopt_status;
     gurobi_success_rate := success_rate gurobi_status;
     perf := performance_of comparison_df |}.

(** A rate in per cent: a number from 0 to 100. *)
Definition percentage (f : pyfloat) : Prop :=
  ∃ q, f = Fin q ∧ (0 <= q)%Q ∧ (q <= 100)%Q.

(** The report shows every comparison statistic, and shows it as the
    marker that is not a number. *)
Definition reports_undefined (rep : report) : Prop :=
  ∃ b, perf rep = Some b ∧
       cuopt_faster_pct b = NaN ∧ gurobi_faster_pct b = NaN ∧
       ties_pct b = NaN ∧ avg_speedup b = NaN ∧ median_speedup b = NaN.

End Summary.

From stdpp Require Import pretty.

(** ** The two patterns, read as regular expressions *)

Module RegexSpec.
Import Re ParseCuopt.

(** [X*]: every character of [s] is in the class. *)
Definition rep (p : ascii → bool) (s : string) : Prop :=
  all_chars p s = true.

(** [X+]: as [X*], and [s] is not empty. *)
Definition rep1 (p : ascii → bool) (s : string) : Prop :=
  s ≠ EmptyString ∧ all_chars p s = true.

(** A text at which a greedy repetition of [p] stops: it is empty or
    begins with a character outside the class. *)
Definition stops (p : ascii → bool) (r : string) : Prop :=
  match r with
  | EmptyString => True
  | String c _ => p c = false
  end.

(** A text of ASCII characters only.  The classes [\d], [\w] and [\s]
    of a [str] pattern are Unicode classes in Python; on the characters
    of ASCII they are the classes of [Re]. *)
Definition is_ascii (c : ascii) : bool := (code c <? 128)%N.

Definition ascii_text (s : string) : Prop := all_chars is_ascii s = true.

(** [s] begins with a match of
    [Concurrent time:\s*([\d,\.]+s),\s*total time\s*([\d,\.]+s)] whose
    groups are [groups]; any way of cutting [s] into the pieces of the
    pattern counts, greedy or not. *)
Definition concurrent_regex (s : string) (groups : string * string) : Prop :=
  ∃ w1 d1 w2 w3 d2 rest,
    s = "Concurrent time:" +:+ w1 +:+ d1 +:+ "s," +:+ w2 +:+
        "total time" +:+ w3 +:+ d2 +:+ "s" +:+ rest ∧
    rep is_space w1 ∧ rep1 is_time_char d1 ∧ rep is_space w2 ∧
    rep is_space w3 ∧ rep1 is_time_char d2 ∧
    groups = (d1 +:+ "s", d2 +:+ "s").

(** [s] begins with a match of
    [Status:\s*(\w+)\s+Objective:\s*(\S+)\s+Iterations:\s*\d+] whose
    groups are [groups]. *)
Definition status_regex (s : string) (groups : string * string) : Prop :=
  ∃ w1 tok w2 w3 obj w4 w5 d rest,
    s = "Status:" +:+ w1 +:+ tok +:+ w2 +:+ "Objective:" +:+ w3 +:+ obj +:+
        w4 +:+ "Iterations:" +:+ w5 +:+ d +:+ rest ∧
    rep is_space w1 ∧ rep1 is_word tok ∧ rep1 is_space w2 ∧
    rep is_space w3 ∧ rep1 is_nonspace obj ∧ rep1 is_space w4 ∧
    rep is_space w5 ∧ rep1 is_digit d ∧
    groups = (tok, obj).

End RegexSpec.

(** ** parse_cuopt_results.py: the rest of [main] *)

Module ParseCuoptMain.
Import Py ParseCuopt.

(** The number of dots of a text, and whether it holds a digit. *)
Fixpoint count_dots (s : string) : nat :=
  match s with
  | EmptyString => 0
  | String c s' => (if decide (c = "."%char) then 1 else 0) + count_dots s'
  end.

Fixpoint has_digit (s : string) : bool :=
  match s with
  | EmptyString => false
  | String c s' => Re.is_digit c || has_digit s'
  end.

#[export] Instance status_val_eq_dec : EqDecision status_val.
Proof. solve_decision. Defined.

(** The table of lines 113 to 119. *)
Definition status_desc_table : gmap Z string :=
  <[2%Z := "Optimal"]> (<[9%Z := "Time Limit"]> (<[3%Z := "Infeasible"]>
    (<[5%Z := "Unbounded"]> (<[11%Z := "Unknown"]> ∅)))).

(** [{...}.get(result['status'], f"Status_{result['status']}")]: a
    status that is not an integer equals no key of the table. *)
Definition status_desc (st : status_val) : string :=
  match st with
  | StInt n => default ("Status_" +:+ pretty n) (status_desc_table !! n)
  | StStr s => "Status_" +:+ s
  | StNone => "Status_None"
  end.

(** [sum(...)] of floats: the folding starts from 0. *)
Definition py_sum (l : list pyfloat) : pyfloat := foldl float_add (Fin 0) l.

(** [len(...)] as a number. *)
Definition py_len {A} (l : list A) : pyfloat :=
  Fin (inject_Z (Z.of_nat (length l))).

(** [sum(1 for r in results if r['status'] == v)] *)
Definition count_status (v : status_val) (results : list result) : nat :=
  length (filter (λ r, status r = v) results).

(** [[r['solve_time'] for r in results if r['solve_time'] is not None]] *)
Definition valid_times (results : list result) : list pyfloat :=
  omap solve_time results.

(** The figures of lines 137 to 151; [avg_time] is [None] when the
    average is not printed. *)
Record summary := Summary {
  total : nat;
  optimal_solves : nat;
  time_limited : nat;
  errors : nat;
  avg_time : option pyfloat
}.

(** Lines 137 to 151. *)
Definition summarize (results : list result) : exn + summary :=
  let optimal_solves := count_status (StInt 2) results in
  let time_limited := count_status (StInt 9) results in
  let errors := count_status (StStr "ERROR") results in
  avg ← (if bool_decide (0 < optimal_solves)%nat then
           match valid_times results with
           | [] => inr None
           | valid_times => Some <$> float_div (py_sum valid_times) (py_len valid_times)
           end
         else inr None);
  mret {| total := length results; optimal_solves := optimal_solves;
          time_limited := time_limited; errors := errors; avg_time := avg |}.

(** [main], lines 86 to 151: with no log file it returns at line 90
    before anything is written; otherwise it yields the rows of the CSV
    file and the figures of the summary. *)
Definition main (log_files : list (string * (exn + string)))
  : exn + option (list result * summary) :=
  match log_files with
  | [] => inr None
  | _ =>
      let results := main_results log_files in
      s ← summarize results;
      mret (Some (results, s))
  end.

(** The two shapes of a record, as far as the summary reads them. *)
Definition parsed (r : result) : Prop :=
  (status r = StStr "ERROR" ∧ solve_time r = None) ∨
  (∃ n q, status r = StInt n ∧ solve_time r = Some (Fin q) ∧ (0 <= q)%Q).

End ParseCuoptMain.

(** ** gurobi_benchmark.py: the rest of [main] *)

Module GurobiMain.
Import Py GurobiBenchmark ParseCuoptMain.

(** The loop of [main], lines 93 to 98: one result per MPS file. *)
Definition main_results (mps_files : list (string * gurobi)) : list result :=
  (λ f, solve_mps_with_gurobi (fst f) (snd f)) <$> mps_files.

(** [sum(1 for r in results if r['status'] == GRB.OPTIMAL)] *)
Definition successful_solves (results : list result) : nat :=
  count_status (StInt OPTIMAL) results.

(** Lines 152 to 154: the average is printed when some solve was
    optimal; the division itself has no guard.  [None] means that
    nothing is printed. *)
Definition average_solve_time (results : list result) : exn + option pyfloat :=
  if bool_decide (0 < successful_solves results)%nat then
    Some <$> float_div (py_sum (omap solve_time results))
                       (py_len (omap solve_time results))
  else inr None.

(** An optimal status without a solve time, which
    [solve_mps_with_gurobi] never returns. *)
Definition optimal_without_time : result :=
  {| model_name := "p"; solve_time := None; status := StInt OPTIMAL;
     objective := ObjNone; error := None |}.

End GurobiMain.

(** ** compare_results.py: [analyze_comparison] from its first line to its last *)

Module CompareAnalysis.
Import Py CompareResults.

(** *** The dtype of a status column *)

Definition is_str (c : cell) : bool :=
  match c with
  | CStr _ => true
  | _ => false
  end.

(** [pd.read_csv] gives a column the object dtype when one of its
    fields is no number, and when the file has no row at all; a column
    of numbers gets an integer or a float dtype. *)
Definition object_dtype (col : list cell) : bool :=
  bool_decide (col = []) || existsb is_str col.

(** A cell of a column of the object dtype as [pd.read_csv] loads it:
    the text of the field, or [NaN] for an empty field. *)
Definition text_cell (c : cell) : bool :=
  match c with
  | CStr _ | CFloat NaN => true
  | _ => false
  end.

(** A column that [pd.read_csv] has loaded as text. *)
Definition text_column (col : list cell) : Prop :=
  object_dtype col = true ∧ Forall (λ c, text_cell c = true) col.

(** [column.str], lines 41 and 53: the accessor exists for the object
    dtype only; on a column of numbers it raises [AttributeError]. *)
Definition str_accessor (col : list cell) : exn + unit :=
  if object_dtype col then inr ()
  else inl (Exception "Can only use .str accessor with string values!").

(** [.str.contains('ERROR')] for one cell; a cell that is no text gives
    [NaN], which [.sum()] skips. *)
Definition str_contains_ERROR (c : cell) : bool :=
  match c with
  | CStr s => ParseCuopt.contains "ERROR" s
  | _ => false
  end.

(** [x == n] for a float [x] and an integer [n]. *)
Definition float_eq_int (x : pyfloat) (n : Z) : bool :=
  match x with
  | Fin q => Qeq_bool q (inject_Z n)
  | _ => false
  end.

(** [k / n * 100] with a numpy integer [k]: numpy divides, so [n = 0]
    gives [nan] and does not raise. *)
Definition rate (k : Z) (n : nat) : pyfloat :=
  float_mul (np_divide (Fin (inject_Z k)) (Fin (inject_Z (Z.of_nat n)))) (Fin 100).

(** What lines 45 to 47 print. *)
Record cuopt_analysis := CuoptAnalysis {
  cuopt_optimal : nat;
  cuopt_errors : nat;
  cuopt_other : Z;
  cuopt_optimal_pct : pyfloat;
  cuopt_errors_pct : pyfloat;
  cuopt_other_pct : pyfloat
}.

(** What lines 57 to 60 print. *)
Record gurobi_analysis := GurobiAnalysis {
  gurobi_optimal : nat;
  gurobi_time_limit : nat;
  gurobi_errors : nat;
  gurobi_other : Z;
  gurobi_optimal_pct : pyfloat;
  gurobi_time_limit_pct : pyfloat;
  gurobi_errors_pct : pyfloat;
  gurobi_other_pct : pyfloat
}.

(** *** The issue lists *)

(** [name in df['model_name'].values]: numpy compares the cells with
    [==], so [NaN] is never found. *)
Definition in_values (df : list row) (name : name) : bool :=
  existsb (λ r, name_eqb (model_name r) name) df.

(** Lines 98, 99, 107 and 108:
    [df[df['model_name'] == name][col].iloc[0]
     if name in df['model_name'].values else "N/A"]. *)
Definition lookup_or_NA {A} (df : list row) (col : row → A) (na : A)
    (name : name) : exn + A :=
  if in_values df name then col <$> iloc0 (select df name)
  else inr na.

(** What one line of an issue list shows about the other solver: its
    status cell and its solve time, or the text ["N/A"] for either. *)
Record issue := Issue {
  issue_model : name;
  other_status : cell;
  other_time : string + option pyfloat
}.

(** The loops of lines 97 to 100 and 106 to 109: one line for every row
    of [df] that satisfies [p], in the order of the rows. *)
Definition report_issues (p : row → bool) (df other : list row)
  : exn + list issue :=
  mapM (λ r,
          st ← lookup_or_NA other status (CStr "N/A") (model_name r);
          tm ← lookup_or_NA other (λ r', inr (solve_time r')) (inl "N/A")
                            (model_name r);
          mret {| issue_model := model_name r; other_status := st;
                  other_time := tm |})
       (filter (λ r, p r) df).

(** Lines 94 to 100: [gurobi_df[gurobi_df['status'] == 9]] against the
    cuOpt file. *)
Definition gurobi_time_limit_issues (cuopt_df gurobi_df : list row)
  : exn + list issue :=
  report_issues (λ r, Summary.cell_eq_int (status r) 9) gurobi_df cuopt_df.

(** Lines 103 to 109: [cuopt_df[cuopt_df['status'] == 'ERROR']] against
    the Gurobi file. *)
Definition cuopt_error_issues (cuopt_df gurobi_df : list row)
  : exn + list issue :=
  report_issues (λ r, Summary.cell_eq_str (status r) "ERROR") cuopt_df gurobi_df.

(** *** The merged frame *)

(** The names of the merged frame, one for each of its rows. *)
Definition merged_names (cuopt_df gurobi_df : list row) : list name :=
  (λ p, model_name (fst p)) <$> merged_df cuopt_df gurobi_df.

(** A cell of the numeric [solve_time] column of a merged frame. *)
Definition time_of (r : row) : pyfloat := default NaN (solve_time r).

(** Lines 75 to 77: the merged rows in which both statuses equal 2. *)
Definition both_optimal (cuopt_df gurobi_df : list row) : list (row * row) :=
  filter (λ p, Summary.cell_eq_int (status (fst p)) 2 &&
               Summary.cell_eq_int (status (snd p)) 2)
         (merged_df cuopt_df gurobi_df).

(** What lines 83 to 88 print. *)
Record optimal_figures := OptimalFigures {
  both_optimal_len : nat;
  avg_cuopt_time : pyfloat;
  avg_gurobi_time : pyfloat;
  avg_optimal_speedup : pyfloat;
  cuopt_faster_in : nat;
  gurobi_faster_in : nat
}.

(** Lines 79 to 88.  The speed-up column is a division of two columns,
    which numpy carries out without raising. *)
Definition optimal_block (cuopt_df gurobi_df : list row) : option optimal_figures :=
  let both_optimal := both_optimal cuopt_df gurobi_df in
  if bool_decide (0 < length both_optimal)%nat then
    let speedup :=
      (λ p, np_divide (time_of (snd p)) (time_of (fst p))) <$> both_optimal in
    Some {| both_optimal_len := length both_optimal;
            avg_cuopt_time := Summary.mean ((λ p, time_of (fst p)) <$> both_optimal);
            avg_gurobi_time := Summary.mean ((λ p, time_of (snd p)) <$> both_optimal);
            avg_optimal_speedup := Summary.mean speedup;
            cuopt_faster_in := length (filter (λ s, float_gt s (Fin 1)) speedup);
            gurobi_faster_in := length (filter (λ s, float_lt s (Fin 1)) speedup) |}
  else None.

(** *** The lists of problems that one solver solved alone *)

(** An element [(model, cuopt_row, gurobi_row)] of the lists of lines
    115 and 132. *)
Record found := Found {
  found_model : name;
  cuopt_row : row;
  gurobi_row : row
}.

(** Lines 117 and 118, 134 and 135. *)
Definition lookup_rows (cuopt_df gurobi_df : list row) (model : name)
  : exn + found :=
  cuopt_row ← iloc0 (select cuopt_df model);
  gurobi_row ← iloc0 (select gurobi_df model);
  mret {| found_model := model; cuopt_row := cuopt_row;
          gurobi_row := gurobi_row |}.

(** [f"{x:.3f}"]: a float is formatted, [nan] too; [None] has no such
    format and raises [TypeError]. *)
Definition format_3f (x : option pyfloat) : exn + pyfloat :=
  match x with
  | Some f => inr f
  | None => inl (Exception "unsupported format string passed to NoneType.__format__")
  end.

(** A line of lines 129 and 143: the model and the formatted time. *)
Definition solved_alone : Type := name * pyfloat.

(** A loop that looks the models up, keeps some of the rows found and
    formats a time of each. *)
Definition alone_loop (keep : found → bool) (time : found → option pyfloat)
    (models : list name) (cuopt_df gurobi_df : list row)
  : exn + list solved_alone :=
  rows ← mapM (lookup_rows cuopt_df gurobi_df) models;
  mapM (λ t, time ← format_3f (time t); mret (found_model t, time))
       (filter (λ t, keep t) rows).

(** *** The function *)

(** What a run of [analyze_comparison] that returns has computed. *)
Record analysis := Analysis {
  cuopt_figures : cuopt_analysis;
  gurobi_figures : gurobi_analysis;
  common_len : nat;
  optimal : option optimal_figures;
  time_limit_issues : list issue;
  error_issues : list issue;
  cuopt_success_gurobi_fail : list solved_alone;
  gurobi_success_cuopt_fail : list solved_alone;
  comparison_rows : list comparison
}.

Section analyze.

(** [pd.to_numeric(text, errors='coerce')] for one text: the number that
    the text denotes, [NaN] when it denotes none.  Nothing else is
    assumed of it. *)
Variable to_numeric : string → pyfloat.

(** The outcome of line 170, which writes the comparison to a file
    under a fixed directory: it depends on the file system alone. *)
Variable to_csv : exn + unit.

(** Lines 39 and 50, a cell of the ['status_num'] column. *)
Definition status_num (r : row) : pyfloat :=
  match status r with
  | CStr s => to_numeric s
  | CInt n => Fin (inject_Z n)
  | CFloat f => f
  end.

(** Lines 39 to 47. *)
Definition cuopt_status_analysis (cuopt_df : list row) : exn + cuopt_analysis :=
  let cuopt_optimal :=
    length (filter (λ r, float_eq_int (status_num r) 2) cuopt_df) in
  _ ← str_accessor (status <$> cuopt_df);
  let cuopt_errors :=
    length (filter (λ r, str_contains_ERROR (status r)) cuopt_df) in
  let cuopt_other :=
    (Z.of_nat (length cuopt_df) - Z.of_nat cuopt_optimal - Z.of_nat cuopt_errors)%Z in
  mret {| cuopt_optimal := cuopt_optimal;
          cuopt_errors := cuopt_errors;
          cuopt_other := cuopt_other;
          cuopt_optimal_pct := rate (Z.of_nat cuopt_optimal) (length cuopt_df);
          cuopt_errors_pct := rate (Z.of_nat cuopt_errors) (length cuopt_df);
          cuopt_other_pct := rate cuopt_other (length cuopt_df) |}.

(** Lines 50 to 60. *)
Definition gurobi_status_analysis (gurobi_df : list row) : exn + gurobi_analysis :=
  let gurobi_optimal :=
    length (filter (λ r, float_eq_int (status_num r) 2) gurobi_df) in
  let gurobi_time_limit :=
    length (filter (λ r, float_eq_int (status_num r) 9) gurobi_df) in
  _ ← str_accessor (status <$> gurobi_df);
  let gurobi_errors :=
    length (filter (λ r, str_contains_ERROR (status r)) gurobi_df) in
  let gurobi_other :=
    (Z.of_nat (length gurobi_df) - Z.of_nat gurobi_optimal
     - Z.of_nat gurobi_time_limit - Z.of_nat gurobi_errors)%Z in
  mret {| gurobi_optimal := gurobi_optimal;
          gurobi_time_limit := gurobi_time_limit;
          gurobi_errors := gurobi_errors;
          gurobi_other := gurobi_other;
          gurobi_optimal_pct := rate (Z.of_nat gurobi_optimal) (length gurobi_df);
          gurobi_time_limit_pct :=
            rate (Z.of_nat gurobi_time_limit) (length gurobi_df);
          gurobi_errors_pct := rate (Z.of_nat gurobi_errors) (length gurobi_df);
          gurobi_other_pct := rate gurobi_other (length gurobi_df) |}.

(** [row['status_num'] == 2] and its negation [!= 2]. *)
Definition solved (r : row) : bool := float_eq_int (status_num r) 2.

(** Lines 115 to 129: the rows of every common model are looked up,
    those that cuOpt solved and Gurobi did not are kept, and a line with
    cuOpt's time is printed for each. *)
Definition cuopt_alone (models : list name) (cuopt_df gurobi_df : list row)
  : exn + list solved_alone :=
  rows ← mapM (lookup_rows cuopt_df gurobi_df) models;
  mapM (λ t, time ← format_3f (solve_time (cuopt_row t));
             mret (found_model t, time))
       (filter (λ t, solved (cuopt_row t) && negb (solved (gurobi_row t))) rows).

(** Lines 132 to 143, the same with the solvers exchanged. *)
Definition gurobi_alone (models : list name) (cuopt_df gurobi_df : list row)
  : exn + list solved_alone :=
  rows ← mapM (lookup_rows cuopt_df gurobi_df) models;
  mapM (λ t, time ← format_3f (solve_time (gurobi_row t));
             mret (found_model t, time))
       (filter (λ t, solved (gurobi_row t) && negb (solved (cuopt_row t))) rows).

(** [analyze_comparison], lines 24 to 170, as a function of the two
    frames that line 24 has loaded.  The statements run in the order of
    the source, and the first one that raises ends the run.  Printing is
    not modelled; the lines after 170 compute nothing new. *)
Definition analyze_comparison (o : set_order) (cuopt_df gurobi_df : list row)
  : exn + analysis :=
  cuopt_figures ← cuopt_status_analysis cuopt_df;
  gurobi_figures ← gurobi_status_analysis gurobi_df;
  let common_models := common_models cuopt_df gurobi_df in
  let optimal := optimal_block cuopt_df gurobi_df in
  time_limit_issues ← gurobi_time_limit_issues cuopt_df gurobi_df;
  error_issues ← cuopt_error_issues cuopt_df gurobi_df;
  cuopt_success_gurobi_fail ← cuopt_alone (iter o common_models) cuopt_df gurobi_df;
  gurobi_success_cuopt_fail ← gurobi_alone (iter o common_models) cuopt_df gurobi_df;
  comparison_data ← comparison_data o cuopt_df gurobi_df;
  _ ← to_csv;
  mret {| cuopt_figures := cuopt_figures;
          gurobi_figures := gurobi_figures;
          common_len := size common_models;
          optimal := optimal;
          time_limit_issues := time_limit_issues;
          error_issues := error_issues;
          cuopt_success_gurobi_fail := cuopt_success_gurobi_fail;
          gurobi_success_cuopt_fail := gurobi_success_cuopt_fail;
          comparison_rows := comparison_data |}.

End analyze.

(** A reading of texts that agrees with [pd.to_numeric] on the status
    cells of the sample frames: unsigned decimal numbers, and texts such
    as [ERROR] that denote no number. *)
Definition decimal_to_numeric (s : string) : pyfloat :=
  match ParseCuopt.py_float s with
  | inr f => f
  | inl _ => NaN
  end.



End CompareAnalysis.

(** ** summary.py: the label of the extreme cases *)

Module SummaryMore.
Import Py Summary.

(** Line 82: ["Gurobi" if row['speedup'] < 1 else "cuOpt"]. *)
Definition faster (speedup : pyfloat) : string :=
  if float_lt speedup (Fin 1) then "Gurobi" else "cuOpt".

(** A cell of a column that was loaded as text. *)
Definition is_text (c : cell) : bool :=
  match c with
  | CStr _ => true
  | _ => false
  end.

End SummaryMore.

(** * Properties *)

(** ** The log parser *)

(** Runs the statements of a [try] body up to the first call whose
    outcome is not known. *)
Ltac run_statements := unfold mbind, Py.M_bind, Py.call; simpl.

Section parser.
Import Py Re ParseCuopt.

Lemma parse_read_failure name e :
  parse_cuopt_log name (inl e) = error_record name (str e).
Proof. reflexivity. Qed.

Lemma parse_missing_markers name content :
  search concurrent_pattern content = None ∨
  search status_pattern content = None →
  parse_cuopt_log name (inr content)
  = error_record name "No concurrent and status lines found in log".
Proof.
  intros H. unfold parse_cuopt_log, run, try_except, parse_body.
  run_statements.
  destruct (search concurrent_pattern content) as [cm|];
    destruct (search status_pattern content) as [sm|];
    try reflexivity.
  destruct H; discriminate.
Qed.

Lemma parse_both_found name content cm sm :
  search concurrent_pattern content = Some cm →
  search status_pattern content = Some sm →
  parse_cuopt_log name (inr content)
  = match py_float (total_time_clean (snd cm)) with
    | inl e => error_record name (str e)
    | inr t =>
        {| model_name := name; solve_time := Some t;
           status := StInt (status_code (fst sm));
           objective := ObjStr (snd sm); error := None |}
    end.
Proof.
  intros Hc Hs. unfold parse_cuopt_log, run, try_except, parse_body.
  run_statements. rewrite Hc, Hs.
  destruct (py_float (total_time_clean (snd cm))); reflexivity.
Qed.

(** Every code that [status_map] can give, and the default, lies in the
    five-element set. *)
Lemma status_code_range tok : status_code tok ∈ [2; 3; 5; 9; 11]%Z.
Proof.
  unfold status_code, status_map.
  destruct (contains "Limit" tok);
    rewrite !lookup_insert, lookup_empty;
    repeat case_decide; simpl; set_solver.
Qed.

(** The replacement text ["Time Limit"] is not a key of [status_map]. *)
Lemma status_code_limit tok :
  contains "Limit" tok = true → status_code tok = 11%Z.
Proof. intros H. unfold status_code. rewrite H. reflexivity. Qed.

Lemma py_float_nonneg s t :
  py_float s = inr t → ∃ q, t = Fin q ∧ (0 <= q)%Q.
Proof.
  unfold py_float. destruct (span is_digit s) as [ip rest].
  destruct rest as [|c fs].
  - destruct ip; [discriminate|]. intros [= <-]. eexists; split; [reflexivity|].
    unfold Qle; simpl. lia.
  - case_decide; [|discriminate].
    destruct (span is_digit fs) as [fp rest'].
    destruct rest'; [|discriminate].
    destruct (ip +:+ fp) eqn:E; [discriminate|].
    intros [= <-]. eexists; split; [reflexivity|].
    unfold Qle; simpl. lia.
Qed.

(** *** What reaches [float] *)

Lemma span_all p s m r : span p s = (m, r) → all_chars p m = true.
Proof.
  revert m r. induction s as [|c s IH]; intros m r; simpl.
  - intros [= <- <-]. reflexivity.
  - destruct (p c) eqn:Hc.
    + destruct (span p s) as [m' r']. intros [= <- <-]. simpl.
      rewrite Hc. eauto.
    + intros [= <- <-]. reflexivity.
Qed.

Lemma plus_all p s m r : plus p s = Some (m, r) → all_chars p m = true.
Proof.
  unfold plus. destruct (span p s) as [m' r'] eqn:E.
  destruct m'; [discriminate|]. intros [= <- <-]. eapply span_all, E.
Qed.

Lemma search_Some {A} (pattern : string → option A) s m :
  search pattern s = Some m → ∃ s', pattern s' = Some m.
Proof.
  induction s as [|c s IH]; simpl.
  - destruct (pattern "") eqn:E; [|discriminate]. intros [= <-]. eauto.
  - destruct (pattern (String c s)) eqn:E; [intros [= <-]; eauto | exact IH].
Qed.

Lemma concurrent_pattern_group2 s cm :
  concurrent_pattern s = Some cm →
  ∃ d, snd cm = d +:+ "s" ∧ all_chars is_time_char d = true.
Proof.
  unfold concurrent_pattern. intros H.
  repeat match type of H with
    | (mbind _ ?x) = Some _ =>
        let E := fresh "E" in destruct x as [[]|] eqn:E; simpl in H;
        [|discriminate]
    | (mbind _ ?x) = Some _ =>
        let E := fresh "E" in destruct x eqn:E; simpl in H; [|discriminate]
    end.
  injection H as <-. simpl. eexists; split; [reflexivity|].
  eapply plus_all; eassumption.
Qed.

Lemma endswith_s_app d : endswith_s (d +:+ "s") = true.
Proof.
  induction d as [|c d IH]; [reflexivity|].
  simpl. destruct (d +:+ "s") eqn:E; [|exact IH].
  destruct d; discriminate.
Qed.

Lemma drop_last_app d : drop_last (d +:+ "s") = d.
Proof.
  induction d as [|c d IH]; [reflexivity|].
  simpl. destruct (d +:+ "s") eqn:E.
  - destruct d; discriminate.
  - rewrite IH. reflexivity.
Qed.

Lemma remove_commas_shape d :
  all_chars is_time_char d = true →
  all_chars digit_or_dot (remove_commas d) = true.
Proof.
  induction d as [|c d IH]; [reflexivity|]. simpl.
  intros [Hc Hd]%andb_true_iff. case_decide as Hcomma; [eauto|].
  simpl. rewrite (IH Hd), andb_true_r.
  unfold is_time_char in Hc. unfold digit_or_dot.
  destruct (is_digit c); [reflexivity|]. simpl in *.
  apply orb_true_iff in Hc as [Hc|Hc]; apply N.eqb_eq in Hc.
  - exfalso. apply Hcomma. rewrite <- (ascii_N_embedding c).
    unfold code in Hc. rewrite Hc. reflexivity.
  - apply bool_decide_eq_true. rewrite <- (ascii_N_embedding c).
    unfold code in Hc. rewrite Hc. reflexivity.
Qed.

(** The text handed to [float] holds digits and dots only, which is the
    domain on which [py_float] is defined. *)
Lemma float_argument_shape content cm :
  search concurrent_pattern content = Some cm →
  all_chars digit_or_dot (total_time_clean (snd cm)) = true.
Proof.
  intros [s' H]%search_Some.
  apply concurrent_pattern_group2 in H as (d & -> & Hd).
  unfold total_time_clean. rewrite endswith_s_app, drop_last_app.
  apply remove_commas_shape, Hd.
Qed.

(** Only the token ["Time"] itself is given the code 9. *)
Example status_code_Time : status_code "Time" = 9%Z.
Proof. reflexivity. Qed.

(** [\w+] stops at the space of ["Time Limit"] and [Objective:] does not
    follow, so the status line is not found at all. *)
Example two_word_limit_is_no_status_line :
  search status_pattern two_word_limit_log = None ∧
  parse_cuopt_log "p" (inr two_word_limit_log)
  = error_record "p" "No concurrent and status lines found in log".
Proof. split; vm_compute; reflexivity. Qed.

(** C3.  A status token that contains ["Limit"] is not given the time
    limit code 9: on [limit_log] the token is ["TimeLimit"], it is
    rewritten to ["Time Limit"], which [status_map] does not hold, and
    the record carries the default code 11. *)
Theorem limit_token_gets_code_11 :
  search status_pattern limit_log = Some ("TimeLimit", "1.25e+03") ∧
  contains "Limit" "TimeLimit" = true ∧
  parse_cuopt_log "p" (inr limit_log)
  = {| model_name := "p"; solve_time := Some (Fin (600120 # 1000));
       status := StInt 11; objective := ObjStr "1.25e+03"; error := None |}.
Proof. repeat split; vm_compute; reflexivity. Qed.

(** C5, as the claim words it: the message of the record for a log
    without markers is not ["no timing/status markers found"]. *)
Lemma missing_markers_message_differs :
  search concurrent_pattern "" = None ∧
  parse_cuopt_log "p" (inr "")
  ≠ error_record "p" "no timing/status markers found".
Proof. split; [reflexivity | vm_compute; discriminate]. Qed.

(** C5, amended.  When the timing line or the status line is missing the
    parser returns the error record with the message ["No concurrent and
    status lines found in log"]; when the body of the [try] block raises,
    it returns the error record with the text of the exception; and
    [main] gets one record for every log, whatever the other logs hold. *)
Theorem parse_failure_is_local name file :
  (∀ content, file = inr content →
     search concurrent_pattern content = None ∨
     search status_pattern content = None →
     parse_cuopt_log name file
     = error_record name "No concurrent and status lines found in log") ∧
  (∀ e st, parse_body file (new_result name) = (inl e, st) →
     parse_cuopt_log name file = error_record name (str e)) ∧
  (∀ before after,
     main_results (before ++ (name, file) :: after)%list
     = (main_results before ++
        parse_cuopt_log name file :: main_results after)%list).
Proof.
  split; [|split].
  - intros content -> H. apply parse_missing_markers, H.
  - intros e st. destruct file as [e'|content].
    + intros [= <- <-]. reflexivity.
    + unfold parse_body. run_statements.
      destruct (search concurrent_pattern content) as [cm|] eqn:Hc;
        destruct (search status_pattern content) as [sm|] eqn:Hs;
        try discriminate.
      rewrite (parse_both_found _ _ _ _ Hc Hs).
      destruct (py_float (total_time_clean (snd cm))); [|discriminate].
      intros [= <- <-]. reflexivity.
  - intros before after. unfold main_results.
    rewrite fmap_app. reflexivity.
Qed.

Lemma parse_failure_is_local_witness :
  parse_cuopt_log "p" (inr "")
  = error_record "p" "No concurrent and status lines found in log" ∧
  parse_cuopt_log "p" (inr garbled_time_log)
  = error_record "p" "could not convert string to float: '1.2.3'".
Proof.
  split.
  - apply (proj1 (parse_failure_is_local "p" (inr "")) "").
    + reflexivity.
    + left. reflexivity.
  - apply (proj1 (proj2 (parse_failure_is_local "p" (inr garbled_time_log)))
             (Exception "could not convert string to float: '1.2.3'")
             (new_result "p")).
    vm_compute. reflexivity.
Defined.

(** C10, as the claim words it: on [garbled_time_log] both lines are
    found, yet the record is not a solved record. *)
Lemma both_lines_found_but_error :
  is_Some (search concurrent_pattern garbled_time_log) ∧
  is_Some (search status_pattern garbled_time_log) ∧
  ¬ solved_record (parse_cuopt_log "p" (inr garbled_time_log)).
Proof.
  split; [|split].
  - vm_compute. eauto.
  - vm_compute. eauto.
  - intros [(n & Hn & _) _]. vm_compute in Hn. discriminate.
Qed.

(** C10, amended.  When both lines are found and [float] accepts the
    cleaned total time, the record has a status among 2, 3, 5, 9 and 11,
    no error text and a solve time that is a number not below zero; when
    [float] rejects it, the record is the error record with the text of
    the exception. *)
Theorem parse_found_record name content cm sm :
  search concurrent_pattern content = Some cm →
  search status_pattern content = Some sm →
  match py_float (total_time_clean (snd cm)) with
  | inr t =>
      parse_cuopt_log name (inr content)
      = {| model_name := name; solve_time := Some t;
           status := StInt (status_code (fst sm));
           objective := ObjStr (snd sm); error := None |} ∧
      solved_record (parse_cuopt_log name (inr content))
  | inl e => parse_cuopt_log name (inr content) = error_record name (str e)
  end.
Proof.
  intros Hc Hs. rewrite (parse_both_found _ _ _ _ Hc Hs).
  destruct (py_float (total_time_clean (snd cm))) as [e|t] eqn:Hf;
    [reflexivity|].
  split; [reflexivity|]. split; [|split]; simpl.
  - eexists; split; [reflexivity | apply status_code_range].
  - reflexivity.
  - destruct (py_float_nonneg _ _ Hf) as (q & -> & Hq). eauto.
Qed.

Lemma parse_found_record_witness :
  parse_cuopt_log "p" (inr optimal_log)
  = {| model_name := "p"; solve_time := Some (Fin (522 # 1000));
       status := StInt 2; objective := ObjStr "2.87906569e+03";
       error := None |} ∧
  solved_record (parse_cuopt_log "p" (inr optimal_log)).
Proof.
  exact (parse_found_record "p" optimal_log ("0.479s", "0.522s")
           ("Optimal", "2.87906569e+03") eq_refl eq_refl).
Defined.

End parser.

(** ** The two producers *)

Section producers.
Import Py ParseCuopt GurobiBenchmark.

Lemma parse_cuopt_log_cases name file :
  (∃ msg, parse_cuopt_log name file = error_record name msg) ∨
  (∃ t n o, parse_cuopt_log name file
            = {| model_name := name; solve_time := Some t; status := StInt n;
                 objective := ObjStr o; error := None |}).
Proof.
  destruct file as [e|content].
  - left. eexists. apply parse_read_failure.
  - destruct (Re.search concurrent_pattern content) as [cm|] eqn:Hc.
    + destruct (Re.search status_pattern content) as [sm|] eqn:Hs.
      * rewrite (parse_both_found _ _ _ _ Hc Hs).
        destruct (py_float (total_time_clean (snd cm))); eauto.
      * left. eexists. apply parse_missing_markers. eauto.
    + left. eexists. apply parse_missing_markers. eauto.
Qed.

(** After the handler ran, the status is ["ERROR"] and the error text is
    set, whatever the body had stored before it raised. *)
Lemma solve_mps_with_gurobi_cases name g :
  (status (solve_mps_with_gurobi name g) = StStr "ERROR" ∧
   is_Some (error (solve_mps_with_gurobi name g))) ∨
  ((∃ n, status (solve_mps_with_gurobi name g) = StInt n) ∧
   error (solve_mps_with_gurobi name g) = None).
Proof.
  unfold solve_mps_with_gurobi, run, try_except, solve_body.
  unfold mbind, M_bind, call, set_solve_time, set_status, set_objective,
    set_error. simpl.
  destruct g as [[?|[]] [?|[]] [?|[]] [?|[]] [?|t] [?|s] [?|[v|]]]; simpl;
    repeat case_decide; simpl; eauto.
Qed.

(** The handler overwrites the status that the body had stored; the
    solve time stays. *)
Example error_after_optimize :
  solve_mps_with_gurobi "p" no_solution_run
  = {| model_name := "p"; solve_time := Some (Fin 600);
       status := StStr "ERROR"; objective := ObjNone;
       error := Some "Unable to retrieve attribute 'ObjVal'" |}.
Proof. reflexivity. Qed.

Example optimal_result :
  solve_mps_with_gurobi "p" optimal_run
  = {| model_name := "p"; solve_time := Some (Fin (3 # 2));
       status := StInt 2; objective := ObjFloat (Fin 1); error := None |}.
Proof. reflexivity. Qed.

(** C6.  In every record returned by [parse_cuopt_log] and in every
    record returned by [solve_mps_with_gurobi], the error text is set if
    and only if the status is ["ERROR"]. *)
Theorem error_text_iff_error_status :
  (∀ name file,
     error (parse_cuopt_log name file) ≠ None ↔
     status (parse_cuopt_log name file) = StStr "ERROR") ∧
  (∀ name g,
     error (solve_mps_with_gurobi name g) ≠ None ↔
     status (solve_mps_with_gurobi name g) = StStr "ERROR").
Proof.
  split.
  - intros name file.
    destruct (parse_cuopt_log_cases name file) as [[msg ->]|(t & n & o & ->)];
      simpl; split; congruence.
  - intros name g.
    destruct (solve_mps_with_gurobi_cases name g)
      as [[-> [msg ->]]|[[n ->] ->]]; split; congruence.
Qed.

End producers.

(** ** The comparison *)

Section comparison.
Import Py CompareResults CompareAnalysis.

(** *** Loops that may raise *)

Lemma mapM_cons_inr {A B} (f : A → exn + B) x l out :
  mapM f (x :: l) = inr out ↔
  ∃ y k, f x = inr y ∧ mapM f l = inr k ∧ out = y :: k.
Proof.
  simpl. unfold mbind, exn_bind, mret, exn_ret.
  destruct (f x) as [e|y]; [split; [discriminate | intros (?&?&?&_); discriminate]|].
  destruct (mapM f l) as [e|k].
  - split; [discriminate | intros (?&?&_&?&_); discriminate].
  - split.
    + intros [= <-]. eauto.
    + intros (y' & k' & [= <-] & [= <-] & ->). reflexivity.
Qed.

Lemma mapM_inr_total {A B} (f : A → exn + B) l :
  (∀ x, x ∈ l → ∃ y, f x = inr y) → ∃ out, mapM f l = inr out.
Proof.
  induction l as [|x l IH]; intros H.
  - exists []. reflexivity.
  - destruct (H x) as [y Hy]; [left|].
    destruct IH as [k Hk]; [intros; apply H; by right|].
    exists (y :: k). apply mapM_cons_inr. eauto.
Qed.

Lemma mapM_inr_Forall2 {A B} (f : A → exn + B) l out :
  mapM f l = inr out → Forall2 (λ x y, f x = inr y) l out.
Proof.
  revert out. induction l as [|x l IH]; intros out.
  - intros [= <-]. constructor.
  - intros (y & k & Hy & Hk & ->)%mapM_cons_inr. constructor; eauto.
Qed.

Lemma mapM_inr_Permutation {A B} (f : A → exn + B) l1 l2 :
  l1 ≡ₚ l2 → ∀ out1, mapM f l1 = inr out1 →
  ∃ out2, mapM f l2 = inr out2 ∧ out1 ≡ₚ out2.
Proof.
  induction 1 as [|x l1 l2 _ IH|x y l|l1 l2 l3 _ IH1 _ IH2]; intros out1.
  - intros [= <-]. exists []. split; reflexivity.
  - intros (y & k & Hy & Hk & ->)%mapM_cons_inr.
    destruct (IH _ Hk) as (k2 & Hk2 & Hp).
    exists (y :: k2). split; [apply mapM_cons_inr; eauto | by constructor].
  - intros (b & k & Hb & (a & k' & Ha & Hk' & ->)%mapM_cons_inr & ->)%mapM_cons_inr.
    exists (a :: b :: k'). split; [|apply perm_swap].
    apply mapM_cons_inr. do 2 eexists. split; [exact Ha|]. split; [|reflexivity].
    apply mapM_cons_inr. eauto.
  - intros H1. destruct (IH1 _ H1) as (out2 & H2 & Hp12).
    destruct (IH2 _ H2) as (out3 & H3 & Hp23).
    exists out3. split; [exact H3 | by etrans].
Qed.


Lemma Forall2_elem_of_r {A B} (P : A → B → Prop) l k y :
  Forall2 P l k → y ∈ k → ∃ x, x ∈ l ∧ P x y.
Proof.
  induction 1 as [|a b l k Hab _ IH]; intros Hy.
  - by apply not_elem_of_nil in Hy.
  - apply elem_of_cons in Hy as [->|Hy].
    + exists a. split; [left | done].
    + destruct (IH Hy) as (x & ? & ?). exists x. split; [by right | done].
Qed.

(** *** Looking a model up *)

Lemma name_eqb_true a b :
  name_eqb a b = true ↔ ∃ s, a = Name s ∧ b = Name s.
Proof.
  destruct a as [|s], b as [|t]; simpl;
    try (split; [discriminate | intros (? & ? & ?); discriminate]).
  rewrite bool_decide_eq_true. split.
  - intros ->. eauto.
  - intros (? & [= ->] & [= ->]). reflexivity.
Qed.

Lemma name_eqb_refl s : name_eqb (Name s) (Name s) = true.
Proof. apply name_eqb_true. eauto. Qed.

Lemma elem_of_names df m :
  m ∈ names df ↔ ∃ r, r ∈ df ∧ model_name r = m.
Proof.
  unfold names. rewrite elem_of_list_to_set, list_elem_of_fmap.
  split; intros (r & ? & ?); eauto.
Qed.

Lemma elem_of_select df m r :
  r ∈ select df m ↔ name_eqb (model_name r) m = true ∧ r ∈ df.
Proof.
  unfold select. rewrite list_elem_of_filter, Is_true_true. reflexivity.
Qed.

Lemma iloc0_select_first df m r :
  iloc0 (select df m) = inr r ↔ first_row df m r.
Proof.
  unfold select, first_row. induction df as [|r0 df IH].
  - split; [discriminate|]. intros (before & after & H & _).
    destruct before; discriminate.
  - rewrite filter_cons. destruct (name_eqb (model_name r0) m) eqn:Hname.
    + rewrite decide_True by exact I. simpl. split.
      * intros [= <-]. exists [], df. repeat split; [done|constructor].
      * intros (before & after & Hdf & Hr & Hb).
        destruct before as [|b before]; simpl in Hdf.
        -- injection Hdf as <- _. reflexivity.
        -- injection Hdf as <- _. inversion Hb; subst. congruence.
    + rewrite decide_False by (intros []). rewrite IH. split.
      * intros (before & after & -> & Hr & Hb).
        exists (r0 :: before), after. repeat split; [done|by constructor].
      * intros (before & after & Hdf & Hr & Hb).
        destruct before as [|b before]; simpl in Hdf.
        -- injection Hdf as <- _. congruence.
        -- injection Hdf as <- ->. inversion Hb; subst.
           exists before, after. done.
Qed.

Lemma first_row_elem_of df m r : first_row df m r → r ∈ df.
Proof.
  intros (before & after & -> & _). apply elem_of_app. right. left.
Qed.

Lemma iloc0_nonempty (rows : list row) r :
  r ∈ rows → ∃ r', iloc0 rows = inr r'.
Proof. destruct rows; [by intros ?%not_elem_of_nil | simpl; eauto]. Qed.

(** A text that is a name of the file has a first row. *)
Lemma iloc0_select_total df m :
  m ∈ names df → m ≠ NoName → ∃ r, iloc0 (select df m) = inr r.
Proof.
  intros (r & Hr & Hm)%elem_of_names Hno.
  apply (iloc0_nonempty _ r), elem_of_select. split; [|done].
  rewrite Hm. destruct m; [done | apply name_eqb_refl].
Qed.


(** The merged frame of lines 67 to 72 holds the pairs of rows of equal
    key, so it too leaves out the models of one file only. *)
Lemma merged_df_pairs cuopt_df gurobi_df l r :
  (l, r) ∈ merged_df cuopt_df gurobi_df ↔
  l ∈ cuopt_df ∧ r ∈ gurobi_df ∧ model_name r = model_name l.
Proof.
  unfold merged_df, with_key. rewrite list_elem_of_bind. split.
  - intros (l' & (r' & [= -> ->] & Hr)%list_elem_of_fmap & Hl).
    apply list_elem_of_filter in Hr as [? ?]. done.
  - intros (Hl & Hr & Hn). exists l. split; [|done].
    apply list_elem_of_fmap. exists r. split; [done|].
    by apply list_elem_of_filter.
Qed.

(** *** One entry *)

Lemma float_gt_zero c :
  float_gt c (Fin 0) = true → is_zero c = false ∧ c ≠ NaN.
Proof.
  unfold float_gt. destruct c as [|negative|q]; simpl; [discriminate| |].
  - intros _. split; [reflexivity | discriminate].
  - unfold Qlt_bool. destruct (0 ?= q)%Q eqn:E; try discriminate.
    intros _. split; [|discriminate].
    apply Qlt_alt in E. unfold Qis_zero.
    destruct (Qeq_bool q 0) eqn:Hz; [|reflexivity].
    apply Qeq_bool_eq in Hz. rewrite Hz in E.
    exfalso. exact (Qlt_irrefl 0 E).
Qed.

Lemma speedup_of_Some c g :
  float_gt c (Fin 0) = true →
  speedup_of (Some c) (Some g) = inr (Some (np_divide g c)).
Proof.
  intros H. unfold speedup_of, float_div. rewrite H.
  destruct (float_gt_zero c H) as [-> _]. reflexivity.
Qed.

Lemma speedup_of_total c g : ∃ v, speedup_of c g = inr v.
Proof.
  destruct c as [c|], g as [g|]; try (eexists; reflexivity).
  destruct (float_gt c (Fin 0)) eqn:H.
  - eexists. apply speedup_of_Some, H.
  - unfold speedup_of. rewrite H. eauto.
Qed.

Lemma speedup_of_computed c g v :
  speedup_of c g = inr v →
  v ≠ None ↔
  ∃ c' g', c = Some c' ∧ g = Some g' ∧ float_gt c' (Fin 0) = true.
Proof.
  destruct c as [c|], g as [g|];
    try (intros [= <-]; split; [congruence | intros (?&?&?&?&_); congruence]).
  destruct (float_gt c (Fin 0)) eqn:H.
  - rewrite (speedup_of_Some _ _ H). intros [= <-]. split; [eauto|congruence].
  - unfold speedup_of. rewrite H. intros [= <-].
    split; [congruence|]. intros (c' & g' & [= <-] & _ & H'). congruence.
Qed.

Lemma speedup_of_missing c g v :
  speedup_of c g = inr v → c = missing ∨ g = missing →
  v = None ∨ v = Some NaN.
Proof.
  unfold missing. intros Hs [->| ->].
  - left. destruct g; injection Hs as <-; reflexivity.
  - destruct c as [c|]; [|left; injection Hs as <-; reflexivity].
    destruct (float_gt c (Fin 0)) eqn:Hgt.
    + right. rewrite (speedup_of_Some _ _ Hgt) in Hs. injection Hs as <-.
      destruct c; [discriminate| |]; reflexivity.
    + left. unfold speedup_of in Hs. rewrite Hgt in Hs.
      injection Hs as <-. reflexivity.
Qed.




Lemma winner_of_rule c g :
  winner_of c g =
  match c, g with
  | Some x, Some y =>
      if float_lt x y then "cuOpt"
      else if float_lt y x then "Gurobi" else "Tie"
  | _, _ => "N/A"
  end.
Proof. destruct c, g; reflexivity. Qed.

(** For two times that are numbers the order decides, and equal times
    are a tie. *)
Lemma winner_of_numbers x y :
  winner_of (Some (Fin x)) (Some (Fin y)) =
  match (x ?= y)%Q with
  | Lt => "cuOpt"
  | Gt => "Gurobi"
  | Eq => "Tie"
  end.
Proof.
  rewrite winner_of_rule. simpl. unfold Qlt_bool.
  rewrite <- (Qcompare_antisym x y).
  destruct (x ?= y)%Q; reflexivity.
Qed.

Lemma winner_of_equal_times x y :
  (x == y)%Q → winner_of (Some (Fin x)) (Some (Fin y)) = "Tie".
Proof.
  intros H. rewrite winner_of_numbers.
  apply Qeq_alt in H. rewrite H. reflexivity.
Qed.

(** A missing cell against any cell that is not [None] is a tie. *)
Lemma winner_of_missing c g :
  (c = missing ∧ g ≠ None) ∨ (c ≠ None ∧ g = missing) →
  winner_of c g = "Tie".
Proof.
  rewrite winner_of_rule. unfold missing.
  intros [[-> Hg]|[Hc ->]].
  - destruct g as [g|]; [|done]. destruct g as [|[]|]; reflexivity.
  - destruct c as [c|]; [|done]. destruct c as [|[]|]; reflexivity.
Qed.

(** A time of two seconds against one of four. *)
Example two_against_four :
  winner_of (Some (Fin 2)) (Some (Fin 4)) = "cuOpt" ∧
  speedup_of (Some (Fin 2)) (Some (Fin 4)) = inr (Some (Fin (4 / 2))).
Proof. split; reflexivity. Qed.

Lemma compare_one_inv cuopt_df gurobi_df m rec :
  compare_one cuopt_df gurobi_df m = inr rec →
  ∃ rc rg,
    first_row cuopt_df m rc ∧ first_row gurobi_df m rg ∧
    cmp_model_name rec = m ∧
    cuopt_solve_time rec = solve_time rc ∧
    cuopt_status rec = status rc ∧
    cuopt_objective rec = objective rc ∧
    cuopt_error rec = error rc ∧
    gurobi_solve_time rec = solve_time rg ∧
    gurobi_status rec = status rg ∧
    gurobi_objective rec = objective rg ∧
    gurobi_error rec = error rg ∧
    speedup_of (solve_time rc) (solve_time rg) = inr (speedup rec) ∧
    winner rec = winner_of (solve_time rc) (solve_time rg).
Proof.
  unfold compare_one, mbind, exn_bind, mret, exn_ret.
  destruct (iloc0 (select cuopt_df m)) as [?|rc] eqn:Hc; [discriminate|].
  destruct (iloc0 (select gurobi_df m)) as [?|rg] eqn:Hg; [discriminate|].
  destruct (speedup_of (solve_time rc) (solve_time rg)) as [?|s] eqn:Hs;
    [discriminate|].
  intros [= <-]. exists rc, rg. simpl.
  apply iloc0_select_first in Hc, Hg. repeat split; done.
Qed.

Lemma compare_one_total cuopt_df gurobi_df m :
  m ∈ common_models cuopt_df gurobi_df → m ≠ NoName →
  ∃ rec, compare_one cuopt_df gurobi_df m = inr rec.
Proof.
  unfold common_models. intros [Hc Hg]%elem_of_intersection Hm.
  destruct (iloc0_select_total _ _ Hc Hm) as [rc Hrc].
  destruct (iloc0_select_total _ _ Hg Hm) as [rg Hrg].
  destruct (speedup_of_total (solve_time rc) (solve_time rg)) as [s Hs].
  unfold compare_one, mbind, exn_bind, mret, exn_ret.
  rewrite Hrc, Hrg, Hs. eauto.
Qed.


(** *** The loop of lines 149 to 166 *)

(** The loop completes when no missing name is common to the two
    files; its entries are those of [compare_one] on the common models,
    in the order of the iteration. *)
Lemma comparison_data_total o cuopt_df gurobi_df :
  NoName ∉ common_models cuopt_df gurobi_df →
  ∃ out, comparison_data o cuopt_df gurobi_df = inr out.
Proof.
  intros Hno. unfold comparison_data.
  apply mapM_inr_total. intros m Hm.
  rewrite (iter_perm o) in Hm. apply elem_of_elements in Hm.
  apply compare_one_total; [done | by intros ->].
Qed.

Lemma comparison_data_names o cuopt_df gurobi_df out :
  comparison_data o cuopt_df gurobi_df = inr out →
  cmp_model_name <$> out = iter o (common_models cuopt_df gurobi_df).
Proof.
  intros H. apply mapM_inr_Forall2 in H.
  induction H as [|m rec l k Hrec _ IH]; [reflexivity|].
  rewrite fmap_cons, IH. f_equal.
  by destruct (compare_one_inv _ _ _ _ Hrec) as (?&?&_&_&?&_).
Qed.

Lemma comparison_data_entry o cuopt_df gurobi_df out rec :
  comparison_data o cuopt_df gurobi_df = inr out → rec ∈ out →
  compare_one cuopt_df gurobi_df (cmp_model_name rec) = inr rec.
Proof.
  intros H Hrec. apply mapM_inr_Forall2 in H.
  induction H as [|m r l k Hr _ IH]; [by apply not_elem_of_nil in Hrec|].
  apply elem_of_cons in Hrec as [->|Hrec]; [|by apply IH].
  destruct (compare_one_inv _ _ _ _ Hr) as (?&?&_&_&->&_). exact Hr.
Qed.


Lemma iter_singleton o (X : gset name) m :
  elements X = [m] → iter o X = [m].
Proof.
  intros H. apply Permutation_singleton_r. rewrite <- H. apply iter_perm.
Qed.

(** *** The statements before the loop *)

Lemma str_accessor_inr col :
  str_accessor col = inr () ↔ object_dtype col = true.
Proof. unfold str_accessor. destruct (object_dtype col); done. Qed.

Lemma text_column_accessor col : text_column col → str_accessor col = inr ().
Proof. intros [H _]. by apply str_accessor_inr. Qed.


Lemma cuopt_status_analysis_total to_numeric cuopt_df :
  object_dtype (status <$> cuopt_df) = true →
  ∃ f, cuopt_status_analysis to_numeric cuopt_df = inr f.
Proof.
  intros H. unfold cuopt_status_analysis, str_accessor. rewrite H.
  eexists. reflexivity.
Qed.


Lemma gurobi_status_analysis_total to_numeric gurobi_df :
  object_dtype (status <$> gurobi_df) = true →
  ∃ f, gurobi_status_analysis to_numeric gurobi_df = inr f.
Proof.
  intros H. unfold gurobi_status_analysis, str_accessor. rewrite H.
  eexists. reflexivity.
Qed.

Lemma first_row_in_values df m r : first_row df m r → in_values df m = true.
Proof.
  intros (before & after & -> & Hn & _). unfold in_values.
  apply existsb_exists. exists r. split; [|done].
  apply list_elem_of_In, elem_of_app. right. left.
Qed.

(** The guarded lookup never raises: it gives the cell of the first row
    of that name, and the replacement when there is no such row. *)
Lemma lookup_or_NA_spec {A} (df : list row) (col : row → A) na name :
  (in_values df name = false ∧ lookup_or_NA df col na name = inr na) ∨
  (∃ r, first_row df name r ∧ lookup_or_NA df col na name = inr (col r)).
Proof.
  unfold lookup_or_NA. destruct (in_values df name) eqn:Hin.
  - right. unfold in_values in Hin.
    apply existsb_exists in Hin as (r & Hr & Hn).
    destruct (iloc0_nonempty (select df name) r) as [r' Hr'].
    { apply elem_of_select. split; [done|]. by apply list_elem_of_In. }
    exists r'. split; [by apply iloc0_select_first|]. by rewrite Hr'.
  - left. done.
Qed.

(** The issue lists never raise.  They have one line for every row of
    the file that satisfies the test, in the order of the rows and with
    repeated names kept.  A problem that the other file does not know
    is listed with ["N/A"] for the status and the time; for a known
    problem the line shows the first row of that name. *)
Lemma report_issues_spec p (df other : list row) :
  ∃ out,
    report_issues p df other = inr out ∧
    issue_model <$> out = model_name <$> filter (λ r, p r) df ∧
    ∀ i, i ∈ out →
      (in_values other (issue_model i) = false ∧
       other_status i = CStr "N/A" ∧ other_time i = inl "N/A") ∨
      (∃ r, first_row other (issue_model i) r ∧
            other_status i = status r ∧ other_time i = inr (solve_time r)).
Proof.
  unfold report_issues. induction (filter (λ r, p r) df) as [|r l IH].
  - exists []. split; [done|]. split; [done|]. intros i Hi.
    by apply not_elem_of_nil in Hi.
  - destruct IH as (k & Hk & Hnames & Hall).
    destruct (lookup_or_NA_spec other status (CStr "N/A") (model_name r))
      as [[Hno Hst]|(r1 & Hr1 & Hst)];
    destruct (lookup_or_NA_spec other (λ r', inr (solve_time r'))
                (inl "N/A" : string + option pyfloat) (model_name r))
      as [[Hno' Htm]|(r2 & Hr2 & Htm)].
    + eexists. split.
      { apply mapM_cons_inr. do 2 eexists. split; [|split; [exact Hk|done]].
        cbn [mbind exn_bind]. rewrite Hst. cbn [mbind exn_bind].
        rewrite Htm. reflexivity. }
      split; [by rewrite !fmap_cons, Hnames|].
      intros i [->|Hi]%elem_of_cons; [left; done | by apply Hall].
    + exfalso. by rewrite (first_row_in_values _ _ _ Hr2) in Hno.
    + exfalso. by rewrite (first_row_in_values _ _ _ Hr1) in Hno'.
    + assert (r2 = r1) as ->.
      { apply iloc0_select_first in Hr1, Hr2. congruence. }
      eexists. split.
      { apply mapM_cons_inr. do 2 eexists. split; [|split; [exact Hk|done]].
        cbn [mbind exn_bind]. rewrite Hst. cbn [mbind exn_bind].
        rewrite Htm. reflexivity. }
      split; [by rewrite !fmap_cons, Hnames|].
      intros i [->|Hi]%elem_of_cons; [right; eauto | by apply Hall].
Qed.

(** *** The lists of problems that one solver solved alone *)

Lemma lookup_rows_inv cuopt_df gurobi_df m t :
  lookup_rows cuopt_df gurobi_df m = inr t →
  found_model t = m ∧
  first_row cuopt_df m (cuopt_row t) ∧ first_row gurobi_df m (gurobi_row t).
Proof.
  unfold lookup_rows, mbind, exn_bind, mret, exn_ret.
  destruct (iloc0 (select cuopt_df m)) as [?|rc] eqn:Hc; [discriminate|].
  destruct (iloc0 (select gurobi_df m)) as [?|rg] eqn:Hg; [discriminate|].
  intros [= <-]. simpl. apply iloc0_select_first in Hc, Hg. done.
Qed.

Lemma lookup_rows_total cuopt_df gurobi_df m :
  m ∈ common_models cuopt_df gurobi_df → m ≠ NoName →
  ∃ t, lookup_rows cuopt_df gurobi_df m = inr t.
Proof.
  unfold common_models. intros [Hc Hg]%elem_of_intersection Hm.
  destruct (iloc0_select_total _ _ Hc Hm) as [rc Hrc].
  destruct (iloc0_select_total _ _ Hg Hm) as [rg Hrg].
  unfold lookup_rows, mbind, exn_bind, mret, exn_ret.
  rewrite Hrc, Hrg. eauto.
Qed.

Lemma format_3f_total x : x ≠ None → ∃ f, format_3f x = inr f.
Proof. destruct x; [eauto | done]. Qed.

Lemma alone_loop_total keep time models cuopt_df gurobi_df :
  (∀ m, m ∈ models → m ∈ common_models cuopt_df gurobi_df ∧ m ≠ NoName) →
  (∀ m t, lookup_rows cuopt_df gurobi_df m = inr t → time t ≠ None) →
  ∃ out, alone_loop keep time models cuopt_df gurobi_df = inr out.
Proof.
  intros Hm Ht. unfold alone_loop.
  destruct (mapM_inr_total (lookup_rows cuopt_df gurobi_df) models)
    as [rows Hrows].
  { intros m Hin. destruct (Hm m Hin). by apply lookup_rows_total. }
  rewrite Hrows. cbn [mbind exn_bind].
  apply mapM_inr_total. intros t [_ Hin]%list_elem_of_filter.
  apply mapM_inr_Forall2 in Hrows.
  destruct (Forall2_elem_of_r _ _ _ t Hrows Hin) as (m & _ & Hlook).
  destruct (format_3f_total (time t) (Ht m t Hlook)) as [f ->].
  eexists. reflexivity.
Qed.

Lemma alone_loop_Permutation keep time models1 models2 cuopt_df gurobi_df out1 :
  models1 ≡ₚ models2 →
  alone_loop keep time models1 cuopt_df gurobi_df = inr out1 →
  ∃ out2, alone_loop keep time models2 cuopt_df gurobi_df = inr out2 ∧
          out1 ≡ₚ out2.
Proof.
  intros Hp. unfold alone_loop.
  destruct (mapM (lookup_rows cuopt_df gurobi_df) models1) as [?|rows1] eqn:H1;
    [discriminate|].
  destruct (mapM_inr_Permutation _ _ _ Hp _ H1) as (rows2 & -> & Hrows).
  cbn [mbind exn_bind]. intros Hout.
  eapply mapM_inr_Permutation; [|exact Hout].
  by apply filter_Permutation.
Qed.

Lemma cuopt_alone_loop to_numeric :
  cuopt_alone to_numeric
  = alone_loop (λ t, solved to_numeric (cuopt_row t) &&
                     negb (solved to_numeric (gurobi_row t)))
               (λ t, solve_time (cuopt_row t)).
Proof. reflexivity. Qed.

Lemma gurobi_alone_loop to_numeric :
  gurobi_alone to_numeric
  = alone_loop (λ t, solved to_numeric (gurobi_row t) &&
                     negb (solved to_numeric (cuopt_row t)))
               (λ t, solve_time (gurobi_row t)).
Proof. reflexivity. Qed.

(** *** The whole function *)

(** A run that returns has passed every statement. *)
Lemma analyze_comparison_inr to_numeric to_csv o cuopt_df gurobi_df a :
  analyze_comparison to_numeric to_csv o cuopt_df gurobi_df = inr a →
  cuopt_status_analysis to_numeric cuopt_df = inr (cuopt_figures a) ∧
  gurobi_status_analysis to_numeric gurobi_df = inr (gurobi_figures a) ∧
  optimal a = optimal_block cuopt_df gurobi_df ∧
  gurobi_time_limit_issues cuopt_df gurobi_df = inr (time_limit_issues a) ∧
  cuopt_error_issues cuopt_df gurobi_df = inr (error_issues a) ∧
  cuopt_alone to_numeric (iter o (common_models cuopt_df gurobi_df))
              cuopt_df gurobi_df = inr (cuopt_success_gurobi_fail a) ∧
  gurobi_alone to_numeric (iter o (common_models cuopt_df gurobi_df))
               cuopt_df gurobi_df = inr (gurobi_success_cuopt_fail a) ∧
  comparison_data o cuopt_df gurobi_df = inr (comparison_rows a) ∧
  to_csv = inr ().
Proof.
  unfold analyze_comparison. cbv zeta.
  destruct (cuopt_status_analysis _ _) as [?|f1]; [discriminate|].
  destruct (gurobi_status_analysis _ _) as [?|f2]; [discriminate|].
  destruct (gurobi_time_limit_issues _ _) as [?|l1]; [discriminate|].
  destruct (cuopt_error_issues _ _) as [?|l2]; [discriminate|].
  destruct (cuopt_alone _ _ _ _) as [?|l3]; [discriminate|].
  destruct (gurobi_alone _ _ _ _) as [?|l4]; [discriminate|].
  destruct (comparison_data _ _ _) as [?|l5]; [discriminate|].
  destruct to_csv as [?|[]]; [discriminate|].
  intros [= <-]. done.
Qed.

Lemma analyze_comparison_stages to_numeric to_csv o cuopt_df gurobi_df
    f1 f2 l1 l2 l3 l4 l5 :
  cuopt_status_analysis to_numeric cuopt_df = inr f1 →
  gurobi_status_analysis to_numeric gurobi_df = inr f2 →
  gurobi_time_limit_issues cuopt_df gurobi_df = inr l1 →
  cuopt_error_issues cuopt_df gurobi_df = inr l2 →
  cuopt_alone to_numeric (iter o (common_models cuopt_df gurobi_df))
              cuopt_df gurobi_df = inr l3 →
  gurobi_alone to_numeric (iter o (common_models cuopt_df gurobi_df))
               cuopt_df gurobi_df = inr l4 →
  comparison_data o cuopt_df gurobi_df = inr l5 →
  to_csv = inr () →
  ∃ a, analyze_comparison to_numeric to_csv o cuopt_df gurobi_df = inr a ∧
       comparison_rows a = l5.
Proof.
  intros H1 H2 H3 H4 H5 H6 H7 H8. unfold analyze_comparison. cbv zeta.
  rewrite H1, H2, H3, H4, H5, H6, H7, H8. eexists. split; reflexivity.
Qed.

(** The run returns for two files whose status columns were loaded as
    text, that share no missing name and hold no [None], when the
    comparison file can be written. *)
Lemma analyze_comparison_total to_numeric to_csv o cuopt_df gurobi_df :
  object_dtype (status <$> cuopt_df) = true →
  object_dtype (status <$> gurobi_df) = true →
  NoName ∉ common_models cuopt_df gurobi_df →
  Forall (λ r, solve_time r ≠ None) cuopt_df →
  Forall (λ r, solve_time r ≠ None) gurobi_df →
  to_csv = inr () →
  ∃ a, analyze_comparison to_numeric to_csv o cuopt_df gurobi_df = inr a.
Proof.
  intros Hc Hg Hno Htc Htg Hcsv.
  destruct (cuopt_status_analysis_total to_numeric _ Hc) as [f1 H1].
  destruct (gurobi_status_analysis_total to_numeric _ Hg) as [f2 H2].
  destruct (report_issues_spec (λ r, Summary.cell_eq_int (status r) 9)
              gurobi_df cuopt_df) as (l1 & H3 & _).
  destruct (report_issues_spec (λ r, Summary.cell_eq_str (status r) "ERROR")
              cuopt_df gurobi_df) as (l2 & H4 & _).
  assert (∀ m, m ∈ iter o (common_models cuopt_df gurobi_df) →
               m ∈ common_models cuopt_df gurobi_df ∧ m ≠ NoName) as Hm.
  { intros m Hin. rewrite (iter_perm o) in Hin. apply elem_of_elements in Hin.
    split; [done | by intros ->]. }
  rewrite Forall_forall in Htc, Htg.
  destruct (alone_loop_total
              (λ t, solved to_numeric (cuopt_row t) &&
                    negb (solved to_numeric (gurobi_row t)))
              (λ t, solve_time (cuopt_row t)) _ cuopt_df gurobi_df Hm)
    as [l3 H5].
  { intros m t (_ & Hr & _)%lookup_rows_inv.
    by apply Htc, (first_row_elem_of _ m). }
  destruct (alone_loop_total
              (λ t, solved to_numeric (gurobi_row t) &&
                    negb (solved to_numeric (cuopt_row t)))
              (λ t, solve_time (gurobi_row t)) _ cuopt_df gurobi_df Hm)
    as [l4 H6].
  { intros m t (_ & _ & Hr)%lookup_rows_inv.
    by apply Htg, (first_row_elem_of _ m). }
  destruct (comparison_data_total o _ _ Hno) as [l5 H7].
  destruct (analyze_comparison_stages to_numeric to_csv o cuopt_df gurobi_df
              f1 f2 l1 l2 l3 l4 l5) as (a & Ha & _); try done.
  eauto.
Qed.

(** What decides whether a run returns does not depend on the order in
    which the set of common models is visited, and neither do the
    entries, up to their order. *)
Lemma analyze_comparison_orders to_numeric to_csv o1 o2 cuopt_df gurobi_df a1 :
  analyze_comparison to_numeric to_csv o1 cuopt_df gurobi_df = inr a1 →
  ∃ a2, analyze_comparison to_numeric to_csv o2 cuopt_df gurobi_df = inr a2 ∧
        comparison_rows a1 ≡ₚ comparison_rows a2.
Proof.
  intros (H1 & H2 & _ & H3 & H4 & H5 & H6 & H7 & H8)%analyze_comparison_inr.
  assert (iter o1 (common_models cuopt_df gurobi_df)
          ≡ₚ iter o2 (common_models cuopt_df gurobi_df)) as Hp
    by (by rewrite !iter_perm).
  rewrite cuopt_alone_loop in H5. rewrite gurobi_alone_loop in H6.
  destruct (alone_loop_Permutation _ _ _ _ _ _ _ Hp H5) as (l3 & H5' & _).
  destruct (alone_loop_Permutation _ _ _ _ _ _ _ Hp H6) as (l4 & H6' & _).
  destruct (mapM_inr_Permutation _ _ _ Hp _ H7) as (l5 & H7' & Hrows).
  destruct (analyze_comparison_stages to_numeric to_csv o2 cuopt_df gurobi_df
              _ _ _ _ l3 l4 l5 H1 H2 H3 H4) as (a2 & Ha2 & Hl5); try done.
  exists a2. split; [exact Ha2 | by rewrite Hl5].
Qed.

Lemma analyze_comparison_same_order to_numeric to_csv o1 o2 cuopt_df gurobi_df :
  iter o1 (common_models cuopt_df gurobi_df)
  = iter o2 (common_models cuopt_df gurobi_df) →
  analyze_comparison to_numeric to_csv o1 cuopt_df gurobi_df
  = analyze_comparison to_numeric to_csv o2 cuopt_df gurobi_df.
Proof.
  intros H. unfold analyze_comparison, comparison_data. cbv zeta.
  by rewrite H.
Qed.

(** An entry of a run that returns is the entry of its model. *)
Lemma analysis_entry to_numeric to_csv o cuopt_df gurobi_df a rec :
  analyze_comparison to_numeric to_csv o cuopt_df gurobi_df = inr a →
  rec ∈ comparison_rows a →
  compare_one cuopt_df gurobi_df (cmp_model_name rec) = inr rec.
Proof.
  intros (_ & _ & _ & _ & _ & _ & _ & H & _)%analyze_comparison_inr Hrec.
  exact (comparison_data_entry o _ _ _ _ H Hrec).
Qed.

Lemma analysis_names to_numeric to_csv o cuopt_df gurobi_df a :
  analyze_comparison to_numeric to_csv o cuopt_df gurobi_df = inr a →
  cmp_model_name <$> comparison_rows a
  = iter o (common_models cuopt_df gurobi_df).
Proof.
  intros (_ & _ & _ & _ & _ & _ & _ & H & _)%analyze_comparison_inr.
  by apply comparison_data_names.
Qed.

(** Two files without an [ERROR] row: line 41 raises, and nothing is
    compared. *)
Example numeric_status_raises to_numeric to_csv o :
  analyze_comparison to_numeric to_csv o [int_row "p1" 1] [int_row "p1" 2]
  = inl (Exception "Can only use .str accessor with string values!").
Proof. reflexivity. Qed.

(** Two files that both hold a row whose name is read as missing: the
    first lookup of line 117 raises. *)
Example missing_name_raises :
  analyze_comparison decimal_to_numeric (inr ()) forward_order
    [nameless_row 1; error_row "p2" no_markers]
    [nameless_row 2; error_row "p3" no_markers]
  = inl (Exception "single positional indexer is out-of-bounds").
Proof. vm_compute. reflexivity. Qed.

(** *** The claims *)




(** C2.  cuOpt left no timing for [p1], so its solve time is loaded as
    [NaN]; Gurobi has a time.  The entry for [p1] names the winner
    ["Tie"], not ["N/A"]: [NaN] passes both [is not None] tests and both
    comparisons with it are false. *)
Theorem missing_time_is_a_tie o :
  comparison_data o cuopt_failed_p1 gurobi_solved_p1
  = inr [ {| cmp_model_name := Name "p1";
             cuopt_solve_time := missing;
             cuopt_status := CStr "ERROR";
             cuopt_objective := CFloat NaN;
             cuopt_error := CStr no_markers;
             gurobi_solve_time := Some (Fin (3 # 2));
             gurobi_status := CStr "2";
             gurobi_objective := CFloat (Fin 1);
             gurobi_error := CFloat NaN;
             speedup := None;
             winner := "Tie" |} ].
Proof.
  unfold comparison_data.
  rewrite (iter_singleton o _ (Name "p1")) by (vm_compute; reflexivity).
  vm_compute. reflexivity.
Qed.

(** The run on these two files returns, with that entry as its only
    one, whatever the numbers are that the status texts denote. *)
Lemma missing_time_run_returns to_numeric o :
  ∃ a,
    analyze_comparison to_numeric (inr ()) o cuopt_failed_p1 gurobi_solved_p1
    = inr a ∧
    winner <$> comparison_rows a = ["Tie"].
Proof.
  destruct (analyze_comparison_total to_numeric (inr ()) o
              cuopt_failed_p1 gurobi_solved_p1) as [a Ha];
    [reflexivity | reflexivity | vm_compute; set_solver
    | repeat constructor; discriminate | repeat constructor; discriminate
    | reflexivity |].
  exists a. split; [exact Ha|].
  destruct (analyze_comparison_inr _ _ _ _ _ _ Ha)
    as (_ & _ & _ & _ & _ & _ & _ & H & _).
  unfold comparison_data in H.
  rewrite (iter_singleton o _ (Name "p1")) in H by (vm_compute; reflexivity).
  remember (comparison_rows a) as rows.
  vm_compute in H. injection H as <-. reflexivity.
Qed.



(** C8, as the claim words it: in [cuopt_twice_p1] the lookup of [p1]
    gives a row that is not the last row of that name. *)
Lemma lookup_is_not_last_row :
  iloc0 (select cuopt_twice_p1 (Name "p1")) = inr (solved_row "p1" 1) ∧
  ¬ last_row cuopt_twice_p1 (Name "p1") (solved_row "p1" 1).
Proof.
  split; [reflexivity|].
  intros (before & after & Hdf & _ & Hafter). unfold cuopt_twice_p1 in Hdf.
  destruct before as [|b0 [|b1 [|b2 before]]];
    try (destruct before; discriminate); simplify_eq/=.
  inversion Hafter as [|? ? Hne]; subst. discriminate.
Qed.

(** C8, amended.  Every entry of a run that returns copies its cuOpt
    fields from the first row of the cuOpt file that bears the model's
    name and its Gurobi fields from the first such row of the Gurobi
    file; later rows with the same name are ignored, and no field is
    taken from another row. *)
Theorem lookup_takes_first_row to_numeric to_csv o cuopt_df gurobi_df a :
  analyze_comparison to_numeric to_csv o cuopt_df gurobi_df = inr a →
  ∀ rec, rec ∈ comparison_rows a →
    ∃ rc rg,
      first_row cuopt_df (cmp_model_name rec) rc ∧
      first_row gurobi_df (cmp_model_name rec) rg ∧
      cuopt_solve_time rec = solve_time rc ∧
      cuopt_status rec = status rc ∧
      cuopt_objective rec = objective rc ∧
      cuopt_error rec = error rc ∧
      gurobi_solve_time rec = solve_time rg ∧
      gurobi_status rec = status rg ∧
      gurobi_objective rec = objective rg ∧
      gurobi_error rec = error rg.
Proof.
  intros Ha rec Hrec.
  destruct (compare_one_inv _ _ _ _ (analysis_entry _ _ _ _ _ _ _ Ha Hrec))
    as (rc & rg & ? & ? & _ & ? & ? & ? & ? & ? & ? & ? & ? & _).
  exists rc, rg. done.
Qed.

Lemma lookup_takes_first_row_witness :
  ∃ a,
    analyze_comparison decimal_to_numeric (inr ()) forward_order
      cuopt_twice_p1 gurobi_solved_p1 = inr a ∧
    cuopt_solve_time <$> comparison_rows a = [Some (Fin 1); missing] ∧
    ∀ rec, rec ∈ comparison_rows a →
      ∃ rc rg,
        first_row cuopt_twice_p1 (cmp_model_name rec) rc ∧
        first_row gurobi_solved_p1 (cmp_model_name rec) rg ∧
        cuopt_solve_time rec = solve_time rc ∧
        cuopt_status rec = status rc ∧
        cuopt_objective rec = objective rc ∧
        cuopt_error rec = error rc ∧
        gurobi_solve_time rec = solve_time rg ∧
        gurobi_status rec = status rg ∧
        gurobi_objective rec = objective rg ∧
        gurobi_error rec = error rg.
Proof.
  destruct (analyze_comparison decimal_to_numeric (inr ()) forward_order
              cuopt_twice_p1 gurobi_solved_p1) as [e|a] eqn:Ha;
    [vm_compute in Ha; discriminate|].
  exists a. split; [reflexivity|]. split.
  - vm_compute in Ha. injection Ha as <-. reflexivity.
  - exact (lookup_takes_first_row decimal_to_numeric (inr ()) forward_order
             cuopt_twice_p1 gurobi_solved_p1 a Ha).
Defined.

(** C9, as the claim words it: the same two files give the entries in
    two different orders when the set of common models is iterated in
    two different orders; both runs return. *)
Lemma order_depends_on_set_iteration :
  ∃ a1 a2,
    analyze_comparison decimal_to_numeric (inr ()) forward_order
      cuopt_a_b gurobi_a_b = inr a1 ∧
    analyze_comparison decimal_to_numeric (inr ()) backward_order
      cuopt_a_b gurobi_a_b = inr a2 ∧
    cmp_model_name <$> comparison_rows a1 = [Name "b"; Name "a"] ∧
    cmp_model_name <$> comparison_rows a2 = [Name "a"; Name "b"] ∧
    comparison_rows a1 ≠ comparison_rows a2.
Proof.
  destruct (analyze_comparison decimal_to_numeric (inr ()) forward_order
              cuopt_a_b gurobi_a_b) as [e|a1] eqn:H1;
    [vm_compute in H1; discriminate|].
  destruct (analyze_comparison decimal_to_numeric (inr ()) backward_order
              cuopt_a_b gurobi_a_b) as [e|a2] eqn:H2;
    [vm_compute in H2; discriminate|].
  exists a1, a2.
  assert (cmp_model_name <$> comparison_rows a1 = [Name "b"; Name "a"]) as Hn1.
  { rewrite (analysis_names _ _ _ _ _ _ H1). vm_compute. reflexivity. }
  assert (cmp_model_name <$> comparison_rows a2 = [Name "a"; Name "b"]) as Hn2.
  { rewrite (analysis_names _ _ _ _ _ _ H2). vm_compute. reflexivity. }
  repeat split; try done.
  intros Heq. rewrite Heq, Hn2 in Hn1. discriminate.
Qed.

(** C9, amended.  For a fixed pair of files, when one run returns then
    so does every other run, whatever the order in which it iterates
    the set of common models; two runs produce the same entries up to
    their order, and they produce the same result, entries in the same
    order, when both iterate the set in the same order. *)
Theorem entries_fixed_up_to_order to_numeric to_csv o1 o2 cuopt_df gurobi_df a1 :
  analyze_comparison to_numeric to_csv o1 cuopt_df gurobi_df = inr a1 →
  ∃ a2,
    analyze_comparison to_numeric to_csv o2 cuopt_df gurobi_df = inr a2 ∧
    comparison_rows a1 ≡ₚ comparison_rows a2 ∧
    (iter o1 (common_models cuopt_df gurobi_df)
     = iter o2 (common_models cuopt_df gurobi_df) → a1 = a2).
Proof.
  intros H1.
  destruct (analyze_comparison_orders _ _ _ o2 _ _ _ H1) as (a2 & H2 & Hp).
  exists a2. split; [exact H2|]. split; [exact Hp|].
  intros Heq.
  rewrite (analyze_comparison_same_order _ _ _ _ _ _ Heq) in H1. congruence.
Qed.

Lemma entries_fixed_up_to_order_witness :
  ∃ a1 a2,
    analyze_comparison decimal_to_numeric (inr ()) forward_order
      cuopt_a_b gurobi_a_b = inr a1 ∧
    analyze_comparison decimal_to_numeric (inr ()) backward_order
      cuopt_a_b gurobi_a_b = inr a2 ∧
    comparison_rows a1 ≡ₚ comparison_rows a2.
Proof.
  destruct (analyze_comparison decimal_to_numeric (inr ()) forward_order
              cuopt_a_b gurobi_a_b) as [e|a1] eqn:H1;
    [vm_compute in H1; discriminate|].
  destruct (entries_fixed_up_to_order decimal_to_numeric (inr ())
              forward_order backward_order cuopt_a_b gurobi_a_b a1 H1)
    as (a2 & H2 & Hp & _).
  exists a1, a2. split; [reflexivity|]. split; [exact H2 | exact Hp].
Defined.

End comparison.

(** ** The summary *)

Section summary.
Import Py Summary.

Lemma Qis_zero_of_nat n :
  (0 < n)%nat → Qis_zero (inject_Z (Z.of_nat n)) = false.
Proof.
  intros Hn. unfold Qis_zero, Qeq_bool, inject_Z. simpl.
  apply Z.eqb_neq. lia.
Qed.

(** A count divided by a length that is not zero, times 100. *)
Lemma rate_is_percentage (k n : nat) :
  (k ≤ n)%nat → (0 < n)%nat →
  percentage (float_mul (np_divide (Fin (inject_Z (Z.of_nat k)))
                                   (Fin (inject_Z (Z.of_nat n)))) (Fin 100)).
Proof.
  intros Hkn Hn. unfold np_divide. rewrite (Qis_zero_of_nat n Hn). simpl.
  eexists. split; [reflexivity|].
  assert (0 < inject_Z (Z.of_nat n))%Q as Hpos.
  { rewrite <- (Zlt_Qlt 0). lia. }
  assert (0 <= inject_Z (Z.of_nat k))%Q as Hk.
  { rewrite <- (Zle_Qle 0). lia. }
  assert (inject_Z (Z.of_nat k) <= inject_Z (Z.of_nat n))%Q as Hle.
  { rewrite <- Zle_Qle. lia. }
  split.
  - apply Qmult_le_0_compat; [|discriminate].
    apply Qle_shift_div_l; [exact Hpos|]. rewrite Qmult_0_l. exact Hk.
  - apply Qle_trans with (1 * 100)%Q; [|discriminate].
    apply Qmult_le_compat_r; [|discriminate].
    apply Qle_shift_div_r; [exact Hpos|]. rewrite Qmult_1_l. exact Hle.
Qed.

Lemma count_is_percentage {A} (p : A → bool) (l : list A) :
  l ≠ [] → percentage (float_mul (np_divide (count p l) (len l)) (Fin 100)).
Proof.
  intros Hl. apply rate_is_percentage.
  - apply length_filter.
  - destruct l; [done | simpl; lia].
Qed.

Lemma mean_no_values l : dropna l = [] → mean l = NaN.
Proof. unfold mean. intros ->. reflexivity. Qed.

Lemma median_no_values l : dropna l = [] → median l = NaN.
Proof. unfold median. intros ->. reflexivity. Qed.

(** With two empty files the unguarded success rate is [0 / 0 * 100]. *)
Example success_rate_of_empty_file : success_rate [] = NaN.
Proof. reflexivity. Qed.

(** C7, as the claim words it: for an empty comparison file the report
    does not show the comparison rates as undefined; it does not show
    them at all. *)
Lemma empty_comparison_shows_no_rates :
  ¬ reports_undefined (main [] [] []).
Proof. intros (b & Hb & _). discriminate. Qed.

(** The rates of [compare_results.py]. *)
Lemma rate_of_empty_frame : CompareAnalysis.rate 0 0 = NaN.
Proof. reflexivity. Qed.

Lemma rate_of_count (k n : nat) :
  (k ≤ n)%nat → (0 < n)%nat →
  percentage (CompareAnalysis.rate (Z.of_nat k) n).
Proof. apply rate_is_percentage. Qed.

Lemma rate_is_number (k : Z) (n : nat) :
  (k ≤ Z.of_nat n)%Z → (0 < n)%nat →
  ∃ q, CompareAnalysis.rate k n = Fin q ∧ (q <= 100)%Q.
Proof.
  intros Hkn Hn. unfold CompareAnalysis.rate, np_divide.
  rewrite (Qis_zero_of_nat n Hn). simpl.
  eexists. split; [reflexivity|].
  assert (0 < inject_Z (Z.of_nat n))%Q as Hpos.
  { rewrite <- (Zlt_Qlt 0). lia. }
  apply Qle_trans with (1 * 100)%Q; [|discriminate].
  apply Qmult_le_compat_r; [|discriminate].
  apply Qle_shift_div_r; [exact Hpos|]. rewrite Qmult_1_l.
  by rewrite <- Zle_Qle.
Qed.

(** C7, amended.  The rates of a solver's file divide by the number of
    its rows without a guard, and the division is numpy's: for an empty
    file every rate is [NaN], the marker that is not a number, and
    nothing is raised; for a file with rows the rates are numbers, those
    of counted rows from 0 to 100.  This holds of the success rates of
    [summary.py] and of the rates that [compare_results.py] prints once
    the status column has been accepted.  The comparison statistics of
    [summary.py] are computed exactly when some entry has the winner
    cuOpt or Gurobi.  Their three rates then divide by the number of
    these entries, which is not zero, and are numbers from 0 to 100; the
    mean and the median speed-up are [NaN] when none of these entries
    has a speed-up.  When no entry has such a winner the statistics are
    left out of the report. *)
Theorem comparison_rates_are_guarded to_numeric cuopt_df gurobi_df
    cuopt_status gurobi_status comparison_df :
  (cuopt_status = [] →
   cuopt_success_rate (main cuopt_status gurobi_status comparison_df) = NaN) ∧
  (cuopt_status ≠ [] →
   percentage (cuopt_success_rate (main cuopt_status gurobi_status comparison_df))) ∧
  (gurobi_status = [] →
   gurobi_success_rate (main cuopt_status gurobi_status comparison_df) = NaN) ∧
  (gurobi_status ≠ [] →
   percentage (gurobi_success_rate (main cuopt_status gurobi_status comparison_df))) ∧
  (cuopt_df = [] →
   ∃ f, CompareAnalysis.cuopt_status_analysis to_numeric cuopt_df = inr f ∧
        CompareAnalysis.cuopt_optimal_pct f = NaN ∧
        CompareAnalysis.cuopt_errors_pct f = NaN ∧
        CompareAnalysis.cuopt_other_pct f = NaN) ∧
  (∀ f, CompareAnalysis.cuopt_status_analysis to_numeric cuopt_df = inr f →
        cuopt_df ≠ [] →
        percentage (CompareAnalysis.cuopt_optimal_pct f) ∧
        percentage (CompareAnalysis.cuopt_errors_pct f) ∧
        ∃ q, CompareAnalysis.cuopt_other_pct f = Fin q ∧ (q <= 100)%Q) ∧
  (gurobi_df = [] →
   ∃ f, CompareAnalysis.gurobi_status_analysis to_numeric gurobi_df = inr f ∧
        CompareAnalysis.gurobi_optimal_pct f = NaN ∧
        CompareAnalysis.gurobi_time_limit_pct f = NaN ∧
        CompareAnalysis.gurobi_errors_pct f = NaN ∧
        CompareAnalysis.gurobi_other_pct f = NaN) ∧
  (∀ f, CompareAnalysis.gurobi_status_analysis to_numeric gurobi_df = inr f →
        gurobi_df ≠ [] →
        percentage (CompareAnalysis.gurobi_optimal_pct f) ∧
        percentage (CompareAnalysis.gurobi_time_limit_pct f) ∧
        percentage (CompareAnalysis.gurobi_errors_pct f) ∧
        ∃ q, CompareAnalysis.gurobi_other_pct f = Fin q ∧ (q <= 100)%Q) ∧
  (perf (main cuopt_status gurobi_status comparison_df) = None ↔
   both_solved comparison_df = []) ∧
  (∀ b, perf (main cuopt_status gurobi_status comparison_df) = Some b →
     both_solved comparison_df ≠ [] ∧
     both_solved_len b = len (both_solved comparison_df) ∧
     is_zero (both_solved_len b) = false ∧
     percentage (cuopt_faster_pct b) ∧
     percentage (gurobi_faster_pct b) ∧
     percentage (ties_pct b) ∧
     (dropna (speedup <$> both_solved comparison_df) = [] →
      avg_speedup b = NaN ∧ median_speedup b = NaN)).
Proof.
  split; [by intros ->|].
  split; [intros H; unfold main; cbn [cuopt_success_rate];
          by apply count_is_percentage|].
  split; [by intros ->|].
  split; [intros H; unfold main; cbn [gurobi_success_rate];
          by apply count_is_percentage|].
  split; [intros ->; eexists; split; [reflexivity|]; done|].
  split.
  { intros f Hf Hne.
    assert (0 < length cuopt_df)%nat as Hlen
      by (destruct cuopt_df; [done | simpl; lia]).
    unfold CompareAnalysis.cuopt_status_analysis in Hf.
    destruct (CompareAnalysis.str_accessor _); [discriminate|].
    cbn [mbind exn_bind mret exn_ret] in Hf. injection Hf as <-.
    cbn [CompareAnalysis.cuopt_optimal_pct CompareAnalysis.cuopt_errors_pct
         CompareAnalysis.cuopt_other_pct].
    split; [apply rate_of_count; [apply length_filter | exact Hlen]|].
    split; [apply rate_of_count; [apply length_filter | exact Hlen]|].
    apply rate_is_number; [lia | exact Hlen]. }
  split; [intros ->; eexists; split; [reflexivity|]; done|].
  split.
  { intros f Hf Hne.
    assert (0 < length gurobi_df)%nat as Hlen
      by (destruct gurobi_df; [done | simpl; lia]).
    unfold CompareAnalysis.gurobi_status_analysis in Hf.
    destruct (CompareAnalysis.str_accessor _); [discriminate|].
    cbn [mbind exn_bind mret exn_ret] in Hf. injection Hf as <-.
    cbn [CompareAnalysis.gurobi_optimal_pct CompareAnalysis.gurobi_time_limit_pct
         CompareAnalysis.gurobi_errors_pct CompareAnalysis.gurobi_other_pct].
    split; [apply rate_of_count; [apply length_filter | exact Hlen]|].
    split; [apply rate_of_count; [apply length_filter | exact Hlen]|].
    split; [apply rate_of_count; [apply length_filter | exact Hlen]|].
    apply rate_is_number; [lia | exact Hlen]. }
  unfold main, performance_of; cbn [perf]; cbv zeta.
  destruct (both_solved comparison_df) as [|r l] eqn:E.
  - split; [done|]. intros b. discriminate.
  - rewrite bool_decide_eq_true_2 by (simpl; lia).
    split; [split; discriminate|].
    intros b [= <-].
    cbn [both_solved_len cuopt_faster_pct gurobi_faster_pct ties_pct
         avg_speedup median_speedup].
    split; [discriminate|]. split; [reflexivity|].
    split; [apply (Qis_zero_of_nat (S (length l))); lia|].
    split;
      [apply (count_is_percentage (λ x, cell_eq_str (winner x) "cuOpt") (r :: l));
       discriminate|].
    split;
      [apply (count_is_percentage (λ x, cell_eq_str (winner x) "Gurobi") (r :: l));
       discriminate|].
    split;
      [apply (count_is_percentage (λ x, cell_eq_str (winner x) "Tie") (r :: l));
       discriminate|].
    intros Hd. split; [by apply mean_no_values | by apply median_no_values].
Qed.

Lemma comparison_rates_are_guarded_witness :
  cuopt_success_rate (main [] [CInt 2] [ComparisonRow (CStr "cuOpt") (Fin 2)])
  = NaN ∧
  percentage
    (gurobi_success_rate (main [] [CInt 2] [ComparisonRow (CStr "cuOpt") (Fin 2)])) ∧
  (∃ f, CompareAnalysis.cuopt_status_analysis
          CompareAnalysis.decimal_to_numeric [] = inr f ∧
        CompareAnalysis.cuopt_optimal_pct f = NaN ∧
        CompareAnalysis.cuopt_errors_pct f = NaN ∧
        CompareAnalysis.cuopt_other_pct f = NaN) ∧
  perf (main [] [CInt 2] [ComparisonRow (CStr "cuOpt") (Fin 2)])
  = Some {| both_solved_len := Fin 1; cuopt_faster := Fin 1;
            gurobi_faster := Fin 0; ties := Fin 0;
            cuopt_faster_pct := Fin (1 / 1 * 100);
            gurobi_faster_pct := Fin (0 / 1 * 100);
            ties_pct := Fin (0 / 1 * 100);
            avg_speedup := Fin ((2 + 0) / 1);
            median_speedup := Fin 2 |} ∧
  percentage (Fin (1 / 1 * 100)).
Proof.
  destruct (comparison_rates_are_guarded CompareAnalysis.decimal_to_numeric
              [] CompareResults.gurobi_a_b
              [] [CInt 2] [ComparisonRow (CStr "cuOpt") (Fin 2)])
    as (H1 & _ & _ & H4 & H5 & _ & _ & _ & _ & H10).
  split; [exact (H1 eq_refl)|].
  split; [apply H4; discriminate|].
  split; [exact (H5 eq_refl)|].
  split; [reflexivity|].
  exact (proj1 (proj2 (proj2 (proj2 (H10 _ eq_refl))))).
Defined.

End summary.

(** ** The scanners against the regular expressions *)

Section regex.
Import Re ParseCuopt RegexSpec.

Lemma append_nil_l s : "" +:+ s = s.
Proof. reflexivity. Qed.

Lemma append_cons c s r : String c s +:+ r = String c (s +:+ r).
Proof. reflexivity. Qed.

Lemma literal_app lit r : literal lit (lit +:+ r) = Some r.
Proof.
  induction lit as [|a lit IH]; [reflexivity|]. simpl.
  rewrite decide_True by reflexivity. exact IH.
Qed.

Lemma literal_Some lit s r : literal lit s = Some r → s = lit +:+ r.
Proof.
  revert s. induction lit as [|a lit IH]; intros s; simpl.
  - by intros [= ->].
  - destruct s as [|c s]; [discriminate|].
    case_decide as Hc; [|discriminate]. subst c.
    intros H. by rewrite (IH _ H).
Qed.

Lemma span_Some p s m r :
  span p s = (m, r) → s = m +:+ r ∧ all_chars p m = true ∧ stops p r.
Proof.
  revert m r. induction s as [|c s IH]; intros m r; simpl.
  - intros [= <- <-]. done.
  - destruct (p c) eqn:Hc.
    + destruct (span p s) as [m' r'] eqn:E. intros [= <- <-].
      destruct (IH _ _ eq_refl) as (-> & Hm & Hr).
      split; [reflexivity|]. split; [|exact Hr].
      apply andb_true_iff. done.
    + intros [= <- <-]. simpl. done.
Qed.

Lemma span_app p m r :
  all_chars p m = true → stops p r → span p (m +:+ r) = (m, r).
Proof.
  intros Hm Hr. induction m as [|c m IH]; simpl in *.
  - destruct r as [|c r]; [reflexivity|]. simpl in *. by rewrite Hr.
  - apply andb_true_iff in Hm as [-> Hm]. by rewrite (IH Hm).
Qed.

Lemma plus_Some p s m r :
  plus p s = Some (m, r) →
  s = m +:+ r ∧ m ≠ EmptyString ∧ all_chars p m = true ∧ stops p r.
Proof.
  unfold plus. destruct (span p s) as [m' r'] eqn:E.
  destruct (span_Some _ _ _ _ E) as (-> & Hm & Hr).
  destruct m'; [discriminate|]. intros [= <- <-]. done.
Qed.

Lemma plus_app p m r :
  m ≠ EmptyString → all_chars p m = true → stops p r →
  plus p (m +:+ r) = Some (m, r).
Proof.
  intros Hne Hm Hr. unfold plus. rewrite (span_app _ _ _ Hm Hr).
  destruct m; done.
Qed.

(** A repetition that is followed by more characters of its class still
    matches; it only takes more. *)
Lemma plus_app_is_Some p m r :
  m ≠ EmptyString → all_chars p m = true → is_Some (plus p (m +:+ r)).
Proof.
  intros Hne Hm. unfold plus.
  destruct m as [|c m]; [done|]. simpl in *.
  apply andb_true_iff in Hm as [-> _].
  destruct (span p (m +:+ r)). eauto.
Qed.

(** Where a piece of another class begins, a repetition stops. *)
Lemma stops_app (p q : ascii → bool) m r :
  (∀ c, q c = true → p c = false) →
  m ≠ EmptyString → all_chars q m = true → stops p (m +:+ r).
Proof.
  intros Hpq Hne Hm. destruct m as [|c m]; [done|]. simpl in *.
  apply andb_true_iff in Hm as [Hc _]. by apply Hpq.
Qed.

Lemma time_char_not_space c : is_time_char c = true → is_space c = false.
Proof. destruct c as [[] [] [] [] [] [] [] []]; vm_compute; congruence. Qed.

Lemma word_not_space c : is_word c = true → is_space c = false.
Proof. destruct c as [[] [] [] [] [] [] [] []]; vm_compute; congruence. Qed.

Lemma digit_not_space c : is_digit c = true → is_space c = false.
Proof. destruct c as [[] [] [] [] [] [] [] []]; vm_compute; congruence. Qed.

Lemma nonspace_not_space c : is_nonspace c = true → is_space c = false.
Proof. unfold is_nonspace. by destruct (is_space c). Qed.

Lemma space_not_word c : is_space c = true → is_word c = false.
Proof. destruct c as [[] [] [] [] [] [] [] []]; vm_compute; congruence. Qed.

Lemma space_not_nonspace c : is_space c = true → is_nonspace c = false.
Proof. unfold is_nonspace. by intros ->. Qed.

Lemma concurrent_pattern_inv s groups :
  concurrent_pattern s = Some groups → concurrent_regex s groups.
Proof.
  unfold concurrent_pattern, concurrent_regex, rep, rep1.
  intros H.
  apply bind_Some in H as (s1 & H1%literal_Some & H).
  destruct (star is_space s1) as [w1 s2] eqn:E1.
  apply span_Some in E1 as (E1 & Hw1 & _). cbn [snd] in H.
  apply bind_Some in H as ([d1 s3] & (E2 & Hd1 & Hd1' & _)%plus_Some & H).
  cbn [snd] in H.
  apply bind_Some in H as (s4 & H4%literal_Some & H).
  apply bind_Some in H as (s5 & H5%literal_Some & H).
  destruct (star is_space s5) as [w2 s6] eqn:E3.
  apply span_Some in E3 as (E3 & Hw2 & _). cbn [snd] in H.
  apply bind_Some in H as (s7 & H7%literal_Some & H).
  destruct (star is_space s7) as [w3 s8] eqn:E4.
  apply span_Some in E4 as (E4 & Hw3 & _). cbn [snd] in H.
  apply bind_Some in H as ([d2 s9] & (E5 & Hd2 & Hd2' & _)%plus_Some & H).
  cbn [snd] in H.
  apply bind_Some in H as (s10 & H10%literal_Some & H).
  injection H as <-.
  exists w1, d1, w2, w3, d2, s10. subst. done.
Qed.

(** X1.  On a text of ASCII characters the scanner for the timing line
    finds a match at the start of the text exactly when the regular
    expression has one there, and it returns the groups of that match;
    the greedy scan loses no match. *)
Theorem concurrent_pattern_is_regex s groups :
  ascii_text s →
  concurrent_pattern s = Some groups ↔ concurrent_regex s groups.
Proof.
  intros _. split; [apply concurrent_pattern_inv|].
  unfold concurrent_pattern, concurrent_regex, rep, rep1.
  intros (w1 & d1 & w2 & w3 & d2 & rest & -> & Hw1 & [Hn1 Hd1] & Hw2 & Hw3
          & [Hn2 Hd2] & ->).
  change ("s," +:+ ?x) with ("s" +:+ "," +:+ x). unfold star.
  assert (stops is_space (d1 +:+ "s" +:+ "," +:+ w2 +:+ "total time" +:+ w3
                          +:+ d2 +:+ "s" +:+ rest)) as Hs1
    by (by apply (stops_app _ is_time_char); [apply time_char_not_space|..]).
  assert (stops is_space (d2 +:+ "s" +:+ rest)) as Hs2
    by (by apply (stops_app _ is_time_char); [apply time_char_not_space|..]).
  rewrite literal_app; cbn [mbind option_bind snd].
  rewrite (span_app is_space w1) by done; cbn [mbind option_bind snd].
  rewrite (plus_app is_time_char d1) by done; cbn [mbind option_bind snd].
  rewrite literal_app; cbn [mbind option_bind snd].
  rewrite literal_app; cbn [mbind option_bind snd].
  rewrite (span_app is_space w2) by done; cbn [mbind option_bind snd].
  rewrite literal_app; cbn [mbind option_bind snd].
  rewrite (span_app is_space w3) by done; cbn [mbind option_bind snd].
  rewrite (plus_app is_time_char d2) by done; cbn [mbind option_bind snd].
  rewrite literal_app. reflexivity.
Qed.

Lemma concurrent_pattern_is_regex_witness :
  concurrent_pattern "Concurrent time: 1.5s, total time 2.0s"
  = Some ("1.5s", "2.0s") ∧
  concurrent_regex "Concurrent time: 1.5s, total time 2.0s" ("1.5s", "2.0s").
Proof.
  split; [reflexivity|].
  apply (concurrent_pattern_is_regex
           "Concurrent time: 1.5s, total time 2.0s" ("1.5s", "2.0s"));
    reflexivity.
Defined.

Lemma status_pattern_inv s groups :
  status_pattern s = Some groups → status_regex s groups.
Proof.
  unfold status_pattern, status_regex, rep, rep1.
  intros K.
  apply bind_Some in K as (s1 & H1%literal_Some & K).
  destruct (star is_space s1) as [w1 s2] eqn:E1.
  apply span_Some in E1 as (E1 & Hw1 & _). cbn [snd] in K.
  apply bind_Some in K as ([tok s3] & (E2 & ? & ? & _)%plus_Some & K).
  cbn [snd] in K.
  apply bind_Some in K as ([w2 s4] & (E3 & ? & ? & _)%plus_Some & K).
  cbn [snd] in K.
  apply bind_Some in K as (s5 & H5%literal_Some & K).
  destruct (star is_space s5) as [w3 s6] eqn:E4.
  apply span_Some in E4 as (E4 & Hw3 & _). cbn [snd] in K.
  apply bind_Some in K as ([obj s7] & (E5 & ? & ? & _)%plus_Some & K).
  cbn [snd] in K.
  apply bind_Some in K as ([w4 s8] & (E6 & ? & ? & _)%plus_Some & K).
  cbn [snd] in K.
  apply bind_Some in K as (s9 & H9%literal_Some & K).
  destruct (star is_space s9) as [w5 s10] eqn:E7.
  apply span_Some in E7 as (E7 & Hw5 & _). cbn [snd] in K.
  apply bind_Some in K as ([d s11] & (E8 & ? & ? & _)%plus_Some & K).
  cbn [snd] in K. injection K as <-.
  exists w1, tok, w2, w3, obj, w4, w5, d, s11. subst. done.
Qed.

(** X2.  The same for the scanner of the status line: on a text of
    ASCII characters it finds a match exactly when the regular
    expression has one, with the same status and objective tokens. *)
Theorem status_pattern_is_regex s groups :
  ascii_text s →
  status_pattern s = Some groups ↔ status_regex s groups.
Proof.
  intros _. split; [apply status_pattern_inv|].
  unfold status_pattern, status_regex, rep, rep1.
  intros (w1 & tok & w2 & w3 & obj & w4 & w5 & d & rest & -> & Hw1 & [? ?]
          & [? ?] & Hw3 & [? ?] & [? ?] & Hw5 & [? ?] & ->).
  unfold star.
  assert (stops is_space (tok +:+ w2 +:+ "Objective:" +:+ w3 +:+ obj +:+ w4
                          +:+ "Iterations:" +:+ w5 +:+ d +:+ rest))
    by (by apply (stops_app _ is_word); [apply word_not_space|..]).
  assert (stops is_word (w2 +:+ "Objective:" +:+ w3 +:+ obj +:+ w4
                         +:+ "Iterations:" +:+ w5 +:+ d +:+ rest))
    by (by apply (stops_app _ is_space); [apply space_not_word|..]).
  assert (stops is_space (obj +:+ w4 +:+ "Iterations:" +:+ w5 +:+ d +:+ rest))
    by (by apply (stops_app _ is_nonspace); [apply nonspace_not_space|..]).
  assert (stops is_nonspace (w4 +:+ "Iterations:" +:+ w5 +:+ d +:+ rest))
    by (by apply (stops_app _ is_space); [apply space_not_nonspace|..]).
  assert (stops is_space (d +:+ rest))
    by (by apply (stops_app _ is_digit); [apply digit_not_space|..]).
  rewrite literal_app; cbn [mbind option_bind snd].
  rewrite (span_app is_space w1) by done; cbn [mbind option_bind snd].
  rewrite (plus_app is_word tok) by done; cbn [mbind option_bind snd].
  rewrite (plus_app is_space w2) by done; cbn [mbind option_bind snd].
  rewrite literal_app; cbn [mbind option_bind snd].
  rewrite (span_app is_space w3) by done; cbn [mbind option_bind snd].
  rewrite (plus_app is_nonspace obj) by done; cbn [mbind option_bind snd].
  rewrite (plus_app is_space w4) by done; cbn [mbind option_bind snd].
  rewrite literal_app; cbn [mbind option_bind snd].
  rewrite (span_app is_space w5) by done; cbn [mbind option_bind snd].
  destruct (plus_app_is_Some is_digit d rest) as [[m r] ->]; done.
Qed.

Lemma status_pattern_is_regex_witness :
  status_pattern "Status: Optimal Objective: 1.25e+03 Iterations: 42"
  = Some ("Optimal", "1.25e+03") ∧
  status_regex "Status: Optimal Objective: 1.25e+03 Iterations: 42"
               ("Optimal", "1.25e+03").
Proof.
  split; [reflexivity|].
  apply (status_pattern_is_regex
           "Status: Optimal Objective: 1.25e+03 Iterations: 42"
           ("Optimal", "1.25e+03"));
    reflexivity.
Defined.

(** X3.  [search] returns the match at the leftmost position where the
    pattern matches: the text splits into a prefix and a rest, the
    pattern matches the rest, and it matches at no position inside the
    prefix.  When a log holds several timing or status lines, the first
    one counts. *)
Theorem search_is_leftmost {A} (pattern : string → option A) s m :
  search pattern s = Some m ↔
  ∃ pre rest,
    s = pre +:+ rest ∧ pattern rest = Some m ∧
    ∀ pre1 pre2, pre = pre1 +:+ pre2 → pre2 ≠ EmptyString →
                 pattern (pre2 +:+ rest) = None.
Proof.
  induction s as [|c s IH]; cbn [search].
  - destruct (pattern "") as [m'|] eqn:E.
    + split.
      * intros [= <-]. exists "", "". repeat split; [done|].
        intros [|? ?] [|? ?]; done.
      * intros (pre & rest & Hs & Hm & _).
        destruct pre; [|discriminate]. rewrite ?append_nil_l, ?append_cons in Hs. subst rest. congruence.
    + split; [discriminate|]. intros (pre & rest & Hs & Hm & _).
      destruct pre; [|discriminate]. rewrite ?append_nil_l, ?append_cons in Hs. subst rest. congruence.
  - destruct (pattern (String c s)) as [m'|] eqn:E.
    + split.
      * intros [= <-]. exists "", (String c s). repeat split; [done|].
        intros [|? ?] [|? ?]; done.
      * intros (pre & rest & Hs & Hm & Hleft).
        destruct pre as [|c' pre]; rewrite ?append_nil_l, ?append_cons in Hs.
        -- subst rest. congruence.
        -- specialize (Hleft "" (String c' pre) eq_refl ltac:(done)).
           rewrite ?append_nil_l, ?append_cons in Hleft. rewrite <- Hs, E in Hleft. discriminate.
    + rewrite IH. split.
      * intros (pre & rest & -> & Hm & Hleft).
        exists (String c pre), rest. repeat split; [done|].
        intros [|c1 pre1] pre2 Hp Hne; rewrite ?append_nil_l, ?append_cons in Hp.
        -- subst pre2. exact E.
        -- injection Hp as -> ->. by apply (Hleft pre1 pre2).
      * intros (pre & rest & Hs & Hm & Hleft).
        destruct pre as [|c' pre]; rewrite ?append_nil_l, ?append_cons in Hs.
        -- subst rest. congruence.
        -- injection Hs as -> ->. exists pre, rest. repeat split; [done|].
           intros pre1 pre2 -> Hne. by apply (Hleft (String c' pre1) pre2).
Qed.

End regex.

(** ** The parser: rejected times, status codes, record shapes *)

Section parser_more.
Import Py Re ParseCuopt RegexSpec ParseCuoptMain.

Lemma all_chars_app p a b :
  all_chars p (a +:+ b) = all_chars p a && all_chars p b.
Proof.
  induction a as [|c a IH]; [reflexivity|].
  rewrite append_cons. simpl. rewrite IH. by rewrite andb_assoc.
Qed.

Lemma has_digit_app a b : has_digit (a +:+ b) = has_digit a || has_digit b.
Proof.
  induction a as [|c a IH]; [reflexivity|].
  rewrite append_cons. simpl. rewrite IH. by rewrite orb_assoc.
Qed.

Lemma count_dots_app a b : count_dots (a +:+ b) = (count_dots a + count_dots b)%nat.
Proof.
  induction a as [|c a IH]; [reflexivity|].
  rewrite append_cons. simpl. rewrite IH. lia.
Qed.

Lemma digit_not_dot c : is_digit c = true → c ≠ "."%char.
Proof. intros H ->. discriminate. Qed.

Lemma digits_no_dots a : all_chars is_digit a = true → count_dots a = 0%nat.
Proof.
  induction a as [|c a IH]; [reflexivity|]. simpl.
  intros [Hc Ha]%andb_true_iff.
  rewrite decide_False by (by apply digit_not_dot). by rewrite IH.
Qed.

Lemma digits_has_digit a :
  all_chars is_digit a = true → has_digit a = true ↔ a ≠ EmptyString.
Proof.
  destruct a as [|c a]; simpl; [done|].
  intros [-> _]%andb_true_iff. done.
Qed.

(** After the digits of a text of digits and dots comes a dot. *)
Lemma stops_digit_is_dot c r :
  stops is_digit (String c r) → all_chars digit_or_dot (String c r) = true →
  c = "."%char ∧ all_chars digit_or_dot r = true.
Proof.
  simpl. intros Hc [Hd Hr]%andb_true_iff. split; [|exact Hr].
  unfold digit_or_dot in Hd. rewrite Hc in Hd. simpl in Hd.
  by apply bool_decide_eq_true in Hd.
Qed.

(** On a text of digits and dots, [float] succeeds exactly when the text
    has a digit and at most one dot. *)
Lemma py_float_accepts s :
  all_chars digit_or_dot s = true →
  (∃ t, py_float s = inr t) ↔ has_digit s = true ∧ (count_dots s ≤ 1)%nat.
Proof.
  intros Hs. unfold py_float.
  destruct (span is_digit s) as [ip rest] eqn:E.
  apply span_Some in E as (-> & Hip & Hstop).
  rewrite all_chars_app in Hs. apply andb_true_iff in Hs as [_ Hrest].
  rewrite has_digit_app, count_dots_app, (digits_no_dots _ Hip).
  destruct rest as [|c fs].
  - simpl. rewrite orb_false_r, (digits_has_digit _ Hip).
    destruct ip as [|i ip'].
    + split; [intros [? [=]] | intros [Hne _]; by destruct Hne].
    + split; [intros _; split; [done|simpl; lia] | intros _; eauto].
  - destruct (stops_digit_is_dot _ _ Hstop Hrest) as [-> Hfs].
    rewrite decide_True by reflexivity.
    destruct (span is_digit fs) as [fp rest'] eqn:E.
    apply span_Some in E as (-> & Hfp & Hstop').
    rewrite all_chars_app in Hfs. apply andb_true_iff in Hfs as [_ Hrest'].
    cbn [count_dots has_digit]. rewrite decide_True by reflexivity.
    rewrite has_digit_app, count_dots_app, (digits_no_dots _ Hfp).
    change (is_digit ".") with false. cbn [orb].
    destruct rest' as [|c' r'].
    + simpl. rewrite orb_false_r.
      destruct (ip +:+ fp) as [|x y] eqn:Eapp.
      * destruct ip; [|discriminate]. rewrite append_nil_l in Eapp. subst fp.
        split; [intros [? [=]] | intros [[=] _]].
      * split; [intros _ | eauto]. split; [|lia].
        apply orb_true_iff.
        destruct ip as [|i ip'].
        -- right. rewrite append_nil_l in Eapp. subst fp.
           by apply (digits_has_digit _ Hfp).
        -- left. by apply (digits_has_digit _ Hip).
    + destruct (stops_digit_is_dot _ _ Hstop' Hrest') as [-> _].
      cbn [count_dots]. rewrite decide_True by reflexivity.
      split; [|lia].
      destruct (ip +:+ fp); intros [? [=]].
Qed.

(** X4.  When both lines of a log are found, the record is an error
    record exactly when the total time, without its [s] and its commas,
    has no digit or more than one dot. *)
Theorem garbled_time_is_error name content cm sm :
  search concurrent_pattern content = Some cm →
  search status_pattern content = Some sm →
  status (parse_cuopt_log name (inr content)) = StStr "ERROR" ↔
  has_digit (total_time_clean (snd cm)) = false ∨
  (2 ≤ count_dots (total_time_clean (snd cm)))%nat.
Proof.
  intros Hc Hs. rewrite (parse_both_found _ _ _ _ Hc Hs).
  pose proof (py_float_accepts _ (float_argument_shape _ _ Hc)) as Hacc.
  destruct (py_float (total_time_clean (snd cm))) as [e|t]; simpl.
  - split; [intros _|done].
    destruct (has_digit (total_time_clean (snd cm))); [|by left].
    right. destruct (decide (count_dots (total_time_clean (snd cm)) ≤ 1)%nat)
      as [Hle|]; [|lia].
    destruct (proj2 Hacc (conj eq_refl Hle)) as [? [=]].
  - split; [discriminate|].
    destruct (proj1 Hacc (ex_intro _ t eq_refl)) as [Hd Hle].
    rewrite Hd. intros [[=]|?]. lia.
Qed.

Lemma garbled_time_is_error_witness :
  status (parse_cuopt_log "p" (inr garbled_time_log)) = StStr "ERROR" ↔
  has_digit "1.2.3" = false ∨ (2 ≤ count_dots "1.2.3")%nat.
Proof.
  exact (garbled_time_is_error "p" garbled_time_log ("0.479s", "1.2.3s")
           ("Optimal", "2.87906569e+03") eq_refl eq_refl).
Defined.

(** X5.  The status token is compared exactly, letter case included:
    ["Optimal"], ["Time"], ["Infeasible"] and ["Unbounded"] get the
    codes 2, 9, 3 and 5, and every other token gets 11. *)
Theorem status_code_table tok :
  status_code tok =
  if decide (tok = "Optimal") then 2%Z
  else if decide (tok = "Time") then 9%Z
  else if decide (tok = "Infeasible") then 3%Z
  else if decide (tok = "Unbounded") then 5%Z
  else 11%Z.
Proof.
  repeat case_decide; subst; try reflexivity.
  unfold status_code, status_map.
  destruct (contains "Limit" tok); [reflexivity|].
  rewrite !lookup_insert_ne by done. rewrite lookup_insert.
  case_decide; reflexivity.
Qed.

(** A record of the parser is an error record, or it holds a time that
    is a number not below zero, a status code, and the two tokens of the
    status line. *)
Lemma parse_cuopt_log_shapes name file :
  (∃ msg, parse_cuopt_log name file = error_record name msg) ∨
  (∃ q tok obj,
     parse_cuopt_log name file
     = {| model_name := name; solve_time := Some (Fin q);
          status := StInt (status_code tok); objective := ObjStr obj;
          error := None |} ∧
     (0 <= q)%Q ∧ rep1 is_word tok ∧ rep1 is_nonspace obj).
Proof.
  destruct file as [e|content].
  - left. eexists. apply parse_read_failure.
  - destruct (search concurrent_pattern content) as [cm|] eqn:Hc;
      [|left; eexists; apply parse_missing_markers; eauto].
    destruct (search status_pattern content) as [sm|] eqn:Hs;
      [|left; eexists; apply parse_missing_markers; eauto].
    rewrite (parse_both_found _ _ _ _ Hc Hs).
    destruct (py_float (total_time_clean (snd cm))) as [e|t] eqn:Hf;
      [left; eauto|].
    right. destruct (py_float_nonneg _ _ Hf) as (q & -> & Hq).
    apply search_Some in Hs as [s' Hs'].
    apply status_pattern_inv in Hs'
      as (w1 & tok & w2 & w3 & obj & w4 & w5 & d & rest & _ & _ & Htok & _ & _
          & Hobj & _ & _ & _ & ->).
    exists q, tok, obj. done.
Qed.

(** X6.  Every record that [parse_cuopt_log] returns bears the name it
    was given and has one of two shapes.  With the status ["ERROR"] it
    has no solve time and no objective.  Otherwise it has no error text,
    its solve time is a number not below zero, and its objective is the
    token of the log, which is not empty and holds no white space. *)
Theorem parser_record_shape name file :
  model_name (parse_cuopt_log name file) = name ∧
  (status (parse_cuopt_log name file) = StStr "ERROR" →
   solve_time (parse_cuopt_log name file) = None ∧
   objective (parse_cuopt_log name file) = ObjNone) ∧
  (status (parse_cuopt_log name file) ≠ StStr "ERROR" →
   error (parse_cuopt_log name file) = None ∧
   ∃ q obj,
     solve_time (parse_cuopt_log name file) = Some (Fin q) ∧ (0 <= q)%Q ∧
     objective (parse_cuopt_log name file) = ObjStr obj ∧
     obj ≠ EmptyString ∧ all_chars is_nonspace obj = true).
Proof.
  destruct (parse_cuopt_log_shapes name file)
    as [[msg ->]|(q & tok & obj & -> & Hq & _ & [Hne Hobj])]; simpl.
  - repeat split; try done.
  - split; [done|]. split; [discriminate|]. intros _. split; [done|].
    exists q, obj. done.
Qed.

(** X8.  For every record of the parser that is not an error record,
    the table of [main] has a description of the status; the fallback
    text [Status_...] is never shown for it. *)
Theorem status_desc_known name file :
  status (parse_cuopt_log name file) ≠ StStr "ERROR" →
  status_desc (status (parse_cuopt_log name file))
  ∈ ["Optimal"; "Time Limit"; "Infeasible"; "Unbounded"; "Unknown"].
Proof.
  destruct (parse_cuopt_log_shapes name file)
    as [[msg ->]|(q & tok & obj & -> & _)]; simpl; [done|].
  intros _. pose proof (status_code_range tok) as Hr.
  repeat (apply elem_of_cons in Hr as [->|Hr]); [..|by apply not_elem_of_nil in Hr];
    vm_compute; set_solver.
Qed.

Lemma status_desc_known_witness :
  status_desc (status (parse_cuopt_log "p" (inr optimal_log)))
  ∈ ["Optimal"; "Time Limit"; "Infeasible"; "Unbounded"; "Unknown"].
Proof.
  apply (status_desc_known "p" (inr optimal_log)). vm_compute. discriminate.
Defined.

(** *** The summary of [main] *)

Lemma main_results_parsed log_files : Forall parsed (main_results log_files).
Proof.
  unfold main_results. apply Forall_fmap, Forall_forall. intros [name file] _.
  simpl. destruct (parse_cuopt_log_shapes name file)
    as [[msg ->]|(q & tok & obj & -> & Hq & _)].
  - by left.
  - right. eauto.
Qed.

Lemma errors_and_valid_times results :
  Forall parsed results →
  (count_status (StStr "ERROR") results + length (valid_times results)
   = length results)%nat.
Proof.
  unfold count_status, valid_times.
  induction 1 as [|r l Hr _ IH]; [reflexivity|].
  rewrite filter_cons. csimpl.
  destruct Hr as [[Hs Ht]|(n & q & Hs & Ht & _)]; rewrite Ht.
  - rewrite decide_True by done. csimpl. lia.
  - rewrite decide_False by congruence. csimpl. lia.
Qed.

Lemma status_counts_bound results :
  (count_status (StInt 2) results + count_status (StInt 9) results
   + count_status (StStr "ERROR") results ≤ length results)%nat.
Proof.
  unfold count_status. induction results as [|r l IH]; [reflexivity|].
  rewrite !filter_cons. repeat case_decide; csimpl; try lia; congruence.
Qed.

Lemma optimal_has_valid_time results :
  Forall parsed results → (0 < count_status (StInt 2) results)%nat →
  valid_times results ≠ [].
Proof.
  unfold count_status, valid_times.
  induction 1 as [|r l Hr _ IH]; [simpl; lia|].
  rewrite filter_cons. csimpl.
  destruct Hr as [[Hs Ht]|(n & q & Hs & Ht & _)]; rewrite Ht; [|done].
  rewrite decide_False by congruence. exact IH.
Qed.

Lemma valid_times_nonneg results :
  Forall parsed results →
  Forall (λ f, ∃ q, f = Fin q ∧ (0 <= q)%Q) (valid_times results).
Proof.
  unfold valid_times. induction 1 as [|r l Hr _ IH]; [constructor|].
  csimpl. destruct Hr as [[Hs Ht]|(n & q & Hs & Ht & Hq)]; rewrite Ht; [done|].
  constructor; eauto.
Qed.

Lemma foldl_float_add_nonneg l acc :
  (0 <= acc)%Q →
  Forall (λ f, ∃ q, f = Fin q ∧ (0 <= q)%Q) l →
  ∃ q, foldl float_add (Fin acc) l = Fin q ∧ (0 <= q)%Q.
Proof.
  intros Hacc H. revert acc Hacc.
  induction H as [|f l (q & -> & Hq) _ IH]; intros acc Hacc; simpl; [eauto|].
  apply IH. rewrite <- (Qplus_0_r 0). by apply Qplus_le_compat.
Qed.

Lemma py_sum_nonneg l :
  Forall (λ f, ∃ q, f = Fin q ∧ (0 <= q)%Q) l →
  ∃ q, py_sum l = Fin q ∧ (0 <= q)%Q.
Proof. apply foldl_float_add_nonneg. discriminate. Qed.

Lemma average_nonneg (v : list pyfloat) q :
  v ≠ [] → (0 <= q)%Q →
  ∃ a, float_div (Fin q) (py_len v) = inr (Fin a) ∧ (0 <= a)%Q.
Proof.
  intros Hv Hq. unfold float_div, py_len, is_zero, np_divide.
  assert (0 < length v)%nat as Hn by (destruct v; [done | simpl; lia]).
  rewrite (Qis_zero_of_nat _ Hn). eexists. split; [reflexivity|].
  apply Qle_shift_div_l.
  - rewrite <- (Zlt_Qlt 0). lia.
  - by rewrite Qmult_0_l.
Qed.

(** X7.  [main] never raises on the records of the parser.  With no log
    file it stops before writing anything.  Otherwise it has one record
    per log file; the records with status ["ERROR"] are exactly those
    without a solve time; the three counts together do not exceed the
    number of records; and the average solve time is printed exactly when
    some record is optimal: its divisor is then not zero, and it is a
    number not below zero. *)
Theorem main_summary log_files :
  ∃ out,
    main log_files = inr out ∧
    (out = None ↔ log_files = []) ∧
    ∀ results s, out = Some (results, s) →
      results = main_results log_files ∧
      length results = length log_files ∧
      total s = length results ∧
      (errors s + length (valid_times results) = length results)%nat ∧
      (optimal_solves s + time_limited s + errors s ≤ length results)%nat ∧
      (optimal_solves s = 0%nat → avg_time s = None) ∧
      ((0 < optimal_solves s)%nat →
       ∃ a, avg_time s = Some (Fin a) ∧ (0 <= a)%Q).
Proof.
  destruct log_files as [|f l]; [exists None; split; [done|]; split; done|].
  unfold main. set (results := main_results (f :: l)).
  pose proof (main_results_parsed (f :: l)) as Hp. fold results in Hp.
  assert (∃ avg,
    (if bool_decide (0 < count_status (StInt 2) results)%nat then
       match valid_times results with
       | [] => inr None
       | t :: v => Some <$> float_div (py_sum (t :: v)) (py_len (t :: v))
       end
     else inr None) = inr avg ∧
    (count_status (StInt 2) results = 0%nat → avg = None) ∧
    ((0 < count_status (StInt 2) results)%nat →
     ∃ a, avg = Some (Fin a) ∧ (0 <= a)%Q)) as (avg & Havg & Hnone & Hsome).
  { case_bool_decide as Hopt.
    - pose proof (optimal_has_valid_time _ Hp Hopt) as Hv.
      destruct (py_sum_nonneg _ (valid_times_nonneg _ Hp)) as (q & Hsum & Hq).
      destruct (average_nonneg _ q Hv Hq) as (a & Ha & Ha0).
      destruct (valid_times results) as [|t v] eqn:E; [done|].
      rewrite Hsum, Ha. exists (Some (Fin a)). split; [done|].
      split; [lia | eauto].
    - exists None. split; [done|]. split; [done | lia]. }
  unfold summarize. cbv zeta. fold results. rewrite Havg. cbn [mbind exn_bind mret exn_ret].
  eexists. split; [reflexivity|]. split; [split; discriminate|].
  intros rs s [= <- <-]. cbn [total errors optimal_solves time_limited avg_time].
  split; [done|]. split; [apply length_fmap|]. split; [done|].
  split; [by apply errors_and_valid_times|].
  split; [apply status_counts_bound|]. done.
Qed.

(** On records that do not come from the parser the average is guarded
    once more: an optimal record without a solve time prints none. *)
Example summarize_guards_empty_times :
  summarize [ {| model_name := "p"; solve_time := None; status := StInt 2;
                 objective := ObjNone; error := None |} ]
  = inr {| total := 1; optimal_solves := 1; time_limited := 0; errors := 0;
           avg_time := None |}.
Proof. reflexivity. Qed.

End parser_more.

(** ** The Gurobi runner *)

Section gurobi_more.
Import Py GurobiBenchmark ParseCuoptMain GurobiMain.

(** Runs the body on every outcome of the Gurobi calls. *)
Ltac gurobi_cases g :=
  unfold solve_mps_with_gurobi, run, try_except, solve_body;
  unfold mbind, M_bind, call, set_solve_time, set_status, set_objective,
    set_error;
  destruct g as [[?|[]] [?|[]] [?|[]] [?|[]] [?|?] [?|?] [?|[?|]]]; simpl;
  repeat case_decide; simpl.

(** X9.  The record of [solve_mps_with_gurobi] holds a solve time
    exactly when reading, relaxing, configuring and optimizing returned
    and [Runtime] could be read; a failure after that point gives an
    error record that keeps the time. *)
Theorem gurobi_solve_time_kept name g t :
  solve_time (solve_mps_with_gurobi name g) = Some t ↔
  read g = inr () ∧ relax g = inr () ∧ setParams g = inr () ∧
  optimize g = inr () ∧ Runtime g = inr t.
Proof. gurobi_cases g; intuition (try congruence); eauto. Qed.

(** X10.  The objective of the record is a number only when the record
    has no error and its status is optimal or time limit; the number is
    then Gurobi's [ObjVal]. *)
Theorem gurobi_objective_is_number name g f :
  objective (solve_mps_with_gurobi name g) = ObjFloat f →
  (status (solve_mps_with_gurobi name g) = StInt OPTIMAL ∨
   status (solve_mps_with_gurobi name g) = StInt TIME_LIMIT) ∧
  error (solve_mps_with_gurobi name g) = None ∧
  ObjVal g = inr (Some f).
Proof. gurobi_cases g; intuition (try congruence); eauto. Qed.

Lemma gurobi_objective_is_number_witness :
  (status (solve_mps_with_gurobi "p" optimal_run) = StInt OPTIMAL ∨
   status (solve_mps_with_gurobi "p" optimal_run) = StInt TIME_LIMIT) ∧
  error (solve_mps_with_gurobi "p" optimal_run) = None ∧
  ObjVal optimal_run = inr (Some (Fin 1)).
Proof.
  apply (gurobi_objective_is_number "p" optimal_run (Fin 1)). reflexivity.
Defined.

(** A record with a numeric status has a solve time. *)
Lemma gurobi_status_has_time name g n :
  status (solve_mps_with_gurobi name g) = StInt n →
  is_Some (solve_time (solve_mps_with_gurobi name g)).
Proof. gurobi_cases g; intuition (try congruence); eauto. Qed.

(** X11.  A record with a numeric status comes from a run in which no
    call raised: it has a solve time and no error text, the status is
    Gurobi's, and for a status other than optimal and time limit the
    objective is the text ["N/A"]. *)
Theorem gurobi_numeric_status name g n :
  status (solve_mps_with_gurobi name g) = StInt n →
  Status g = inr n ∧
  (∃ t, Runtime g = inr t ∧
        solve_time (solve_mps_with_gurobi name g) = Some t) ∧
  error (solve_mps_with_gurobi name g) = None ∧
  (n ≠ OPTIMAL → n ≠ TIME_LIMIT →
   objective (solve_mps_with_gurobi name g) = ObjStr "N/A").
Proof. gurobi_cases g; intuition (try congruence); eauto. Qed.

Lemma gurobi_numeric_status_witness :
  Status optimal_run = inr 2%Z ∧
  (∃ t, Runtime optimal_run = inr t ∧
        solve_time (solve_mps_with_gurobi "p" optimal_run) = Some t) ∧
  error (solve_mps_with_gurobi "p" optimal_run) = None ∧
  (2%Z ≠ OPTIMAL → 2%Z ≠ TIME_LIMIT →
   objective (solve_mps_with_gurobi "p" optimal_run) = ObjStr "N/A").
Proof.
  apply (gurobi_numeric_status "p" optimal_run 2). reflexivity.
Defined.

Lemma optimal_has_time (results : list result) :
  Forall (λ r, ∀ n, status r = StInt n → is_Some (solve_time r)) results →
  (0 < successful_solves results)%nat → omap solve_time results ≠ [].
Proof.
  unfold successful_solves, count_status.
  induction 1 as [|r l Hr _ IH]; [simpl; lia|].
  rewrite filter_cons. csimpl. case_decide as Hs.
  - destruct (Hr _ Hs) as [t ->]. done.
  - intros H. destruct (solve_time r); [done|]. by apply IH.
Qed.

Lemma float_div_by_len (a : pyfloat) (v : list pyfloat) :
  v ≠ [] → float_div a (py_len v) = inr (np_divide a (py_len v)).
Proof.
  intros Hv. unfold float_div, py_len, is_zero.
  rewrite Qis_zero_of_nat; [done|]. destruct v; [done | simpl; lia].
Qed.

(** X12.  On the records that [solve_mps_with_gurobi] returns, the
    unguarded division of the average solve time never raises: a record
    with the optimal status always has a solve time, so the divisor is
    not zero whenever the average is computed.  The average is printed
    exactly when some solve was optimal. *)
Theorem gurobi_average_never_raises mps_files :
  ∃ avg,
    average_solve_time (main_results mps_files) = inr avg ∧
    (avg = None ↔ successful_solves (main_results mps_files) = 0%nat).
Proof.
  unfold average_solve_time. case_bool_decide as Hopt.
  - assert (omap solve_time (main_results mps_files) ≠ []) as Hv.
    { apply optimal_has_time; [|exact Hopt].
      unfold main_results. apply Forall_fmap, Forall_forall. intros [name g] _ n.
      apply gurobi_status_has_time. }
    rewrite (float_div_by_len _ _ Hv). eexists. split; [reflexivity|].
    split; [discriminate | lia].
  - exists None. split; [reflexivity|]. split; [lia | done].
Qed.

(** On other records the division can raise: an optimal status without
    a solve time divides zero by zero. *)
Example average_raises_without_time :
  ∃ e, average_solve_time [optimal_without_time] = inl e.
Proof. eexists. reflexivity. Qed.

End gurobi_more.

(** ** The comparison: issue lists, the merged frame, winner and speed-up *)

Section comparison_more.
Import Py CompareResults CompareAnalysis.

Lemma elem_of_names_fmap (df : list row) m :
  m ∈ names df ↔ m ∈ model_name <$> df.
Proof. unfold names. apply elem_of_list_to_set. Qed.

Lemma text_cell_not_int c n :
  text_cell c = true → Summary.cell_eq_int c n = false.
Proof. by destruct c as [[| |]| |]. Qed.

Lemma filter_none {A} (p : A → bool) (l : list A) :
  Forall (λ x, p x = false) l → filter (λ x, p x) l = [].
Proof.
  induction 1 as [|x l Hx _ IH]; [reflexivity|].
  rewrite filter_cons, Hx. simpl. exact IH.
Qed.

(** X13.  In a run that returns on two files whose status columns were
    loaded as text, the list of Gurobi's time limits is empty: no text
    equals the integer 9.  The list of cuOpt's errors has one line for
    every row of the cuOpt file whose status is ["ERROR"], in the order
    of the rows and with repeated names kept.  A problem that the Gurobi
    file does not know is still listed, with ["N/A"] for the status and
    the time; for a known problem the line shows the first row of that
    name. *)
Theorem issue_lists_of_text_files to_numeric to_csv o cuopt_df gurobi_df a :
  text_column (status <$> cuopt_df) →
  text_column (status <$> gurobi_df) →
  analyze_comparison to_numeric to_csv o cuopt_df gurobi_df = inr a →
  time_limit_issues a = [] ∧
  issue_model <$> error_issues a
  = model_name <$> filter (λ r, Summary.cell_eq_str (status r) "ERROR") cuopt_df ∧
  ∀ i, i ∈ error_issues a →
    (in_values gurobi_df (issue_model i) = false ∧
     other_status i = CStr "N/A" ∧ other_time i = inl "N/A") ∨
    (∃ r, first_row gurobi_df (issue_model i) r ∧
          other_status i = status r ∧ other_time i = inr (solve_time r)).
Proof.
  intros _ [_ Hg] (_ & _ & _ & H3 & H4 & _)%analyze_comparison_inr.
  split.
  - unfold gurobi_time_limit_issues, report_issues in H3.
    rewrite filter_none in H3; [by injection H3 as <-|].
    apply Forall_fmap in Hg. eapply Forall_impl; [exact Hg|].
    intros r Hr. by apply text_cell_not_int.
  - destruct (report_issues_spec (λ r, Summary.cell_eq_str (status r) "ERROR")
                cuopt_df gurobi_df) as (out & Hout & Hnames & Hall).
    unfold cuopt_error_issues in H4. rewrite Hout in H4.
    injection H4 as <-. done.
Qed.

Lemma issue_lists_of_text_files_witness :
  ∃ a,
    analyze_comparison decimal_to_numeric (inr ()) forward_order
      cuopt_p1_p2 gurobi_p2_p3 = inr a ∧
    time_limit_issues a = [] ∧
    issue_model <$> error_issues a = [Name "p2"].
Proof.
  destruct (analyze_comparison decimal_to_numeric (inr ()) forward_order
              cuopt_p1_p2 gurobi_p2_p3) as [e|a] eqn:Ha;
    [vm_compute in Ha; discriminate|].
  exists a. split; [reflexivity|].
  destruct (issue_lists_of_text_files decimal_to_numeric (inr ()) forward_order
              cuopt_p1_p2 gurobi_p2_p3 a) as (H1 & H2 & _);
    [split; [reflexivity | repeat constructor]
    | split; [reflexivity | repeat constructor]
    | exact Ha |].
  split; [exact H1|]. rewrite H2. reflexivity.
Defined.

(** *** The merged frame against the comparison list *)

Lemma merged_names_common cuopt_df gurobi_df m :
  m ∈ merged_names cuopt_df gurobi_df ↔ m ∈ common_models cuopt_df gurobi_df.
Proof.
  unfold merged_names, common_models.
  rewrite list_elem_of_fmap, elem_of_intersection, !elem_of_names. split.
  - intros ([l r] & -> & (Hl & Hr & Hn)%merged_df_pairs). simpl.
    split; [exists l | exists r]; done.
  - intros [(l & Hl & <-) (r & Hr & Hn)]. exists (l, r). split; [done|].
    by apply merged_df_pairs.
Qed.

Lemma with_key_unique (df : list row) m :
  NoDup (model_name <$> df) → (length (with_key df m) ≤ 1)%nat.
Proof.
  unfold with_key. induction df as [|r df IH]; [simpl; lia|].
  rewrite fmap_cons, NoDup_cons. intros [Hr Hdf].
  rewrite filter_cons. case_decide as Hm; [|by apply IH].
  assert (filter (λ r0, model_name r0 = m) df = []) as ->; [|simpl; lia].
  destruct (filter (λ r0, model_name r0 = m) df) as [|r' l] eqn:E; [done|].
  exfalso. apply Hr. assert (r' ∈ filter (λ r0, model_name r0 = m) df) as Hin
    by (rewrite E; left).
  apply list_elem_of_filter in Hin as [Hn Hin].
  apply list_elem_of_fmap. exists r'. split; [congruence|done].
Qed.

Lemma merged_names_NoDup cuopt_df gurobi_df :
  NoDup (model_name <$> cuopt_df) → NoDup (model_name <$> gurobi_df) →
  NoDup (merged_names cuopt_df gurobi_df).
Proof.
  intros Hc Hg. unfold merged_names, merged_df.
  induction cuopt_df as [|l cu IH]; [constructor|].
  rewrite fmap_cons, NoDup_cons in Hc. destruct Hc as [Hl Hcu].
  rewrite bind_cons, fmap_app. apply NoDup_app. split; [|split].
  - pose proof (with_key_unique gurobi_df (model_name l) Hg) as Hlen.
    destruct (with_key gurobi_df (model_name l)) as [|r [|r' k]];
      [constructor | apply NoDup_singleton | simpl in Hlen; lia].
  - intros m (p & -> & (r & -> & _)%list_elem_of_fmap)%list_elem_of_fmap.
    simpl. intros Hin. apply Hl.
    change (model_name l ∈ merged_names cu gurobi_df) in Hin.
    apply merged_names_common in Hin. unfold common_models in Hin.
    apply elem_of_intersection in Hin as [Hin _].
    by apply elem_of_names_fmap.
  - by apply IH.
Qed.

(** X14.  In a run that returns, the comparison list never has more
    entries than the merged frame of lines 67 to 72 has rows, and it has
    as many when neither file repeats a model name; a repeated name adds
    rows to the merged frame only. *)
Theorem comparison_within_merged to_numeric to_csv o cuopt_df gurobi_df a :
  analyze_comparison to_numeric to_csv o cuopt_df gurobi_df = inr a →
  (length (comparison_rows a) ≤ length (merged_df cuopt_df gurobi_df))%nat ∧
  (NoDup (model_name <$> cuopt_df) → NoDup (model_name <$> gurobi_df) →
   length (comparison_rows a) = length (merged_df cuopt_df gurobi_df)).
Proof.
  intros Ha.
  assert (length (comparison_rows a)
          = length (elements (common_models cuopt_df gurobi_df))) as ->.
  { rewrite <- (length_fmap cmp_model_name), (analysis_names _ _ _ _ _ _ Ha).
    by rewrite (iter_perm o). }
  rewrite <- (length_fmap (λ p, model_name (fst p)) (merged_df _ _)).
  fold (merged_names cuopt_df gurobi_df). split.
  - apply submseteq_length, NoDup_submseteq; [apply NoDup_elements|].
    intros m Hm. apply merged_names_common. by apply elem_of_elements.
  - intros Hc Hg. apply Permutation_length, NoDup_Permutation.
    + apply NoDup_elements.
    + by apply merged_names_NoDup.
    + intros m. rewrite elem_of_elements. symmetry. apply merged_names_common.
Qed.

Lemma comparison_within_merged_witness :
  ∃ a,
    analyze_comparison decimal_to_numeric (inr ()) forward_order
      cuopt_twice_p1 gurobi_solved_p1 = inr a ∧
    length (merged_df cuopt_twice_p1 gurobi_solved_p1) = 3%nat ∧
    (length (comparison_rows a) ≤ 3)%nat.
Proof.
  destruct (analyze_comparison decimal_to_numeric (inr ()) forward_order
              cuopt_twice_p1 gurobi_solved_p1) as [e|a] eqn:Ha;
    [vm_compute in Ha; discriminate|].
  exists a. split; [reflexivity|]. split; [reflexivity|].
  exact (proj1 (comparison_within_merged decimal_to_numeric (inr ())
                  forward_order cuopt_twice_p1 gurobi_solved_p1 a Ha)).
Defined.

(** With [p1] twice in the cuOpt file the merged frame has two rows for
    it and the comparison list one entry. *)
Example repeated_name_is_merged_twice :
  length (merged_df cuopt_twice_p1 [solved_row "p1" 3]) = 2%nat ∧
  (λ out, length out) <$> comparison_data forward_order cuopt_twice_p1
                            [solved_row "p1" 3] = inr 1%nat.
Proof. split; vm_compute; reflexivity. Qed.

(** *** Winner and speed-up *)

Lemma Qdiv_compare_1 (c g : Q) :
  (0 < c)%Q → ((1 ?= g / c) = (c ?= g))%Q.
Proof.
  intros Hc. destruct (c ?= g)%Q eqn:E.
  - apply Qeq_alt in E. apply Qeq_alt. rewrite <- E.
    symmetry. apply Qmult_inv_r. intros H0. rewrite H0 in Hc.
    by apply Qlt_irrefl in Hc.
  - apply Qlt_alt in E. apply Qlt_alt.
    apply Qlt_shift_div_l; [done|]. by rewrite Qmult_1_l.
  - apply Qgt_alt in E. apply Qgt_alt.
    apply Qlt_shift_div_r; [done|]. by rewrite Qmult_1_l.
Qed.

(** X15.  For two solve times that are numbers, cuOpt's above zero, the
    entry's winner and its speed-up agree: the speed-up is Gurobi's time
    over cuOpt's, the winner is cuOpt exactly when it is above 1, Gurobi
    exactly when it is below 1, and a tie exactly when it is 1. *)
Theorem winner_agrees_with_speedup (c g : Q) :
  (0 < c)%Q →
  speedup_of (Some (Fin c)) (Some (Fin g)) = inr (Some (Fin (g / c))) ∧
  (winner_of (Some (Fin c)) (Some (Fin g)) = "cuOpt" ↔ (1 < g / c)%Q) ∧
  (winner_of (Some (Fin c)) (Some (Fin g)) = "Gurobi" ↔ (g / c < 1)%Q) ∧
  (winner_of (Some (Fin c)) (Some (Fin g)) = "Tie" ↔ (g / c == 1)%Q).
Proof.
  intros Hc. split.
  - rewrite speedup_of_Some.
    + unfold np_divide. destruct (Qis_zero c) eqn:Hz; [|done].
      apply Qeq_bool_eq in Hz. rewrite Hz in Hc. by apply Qlt_irrefl in Hc.
    + unfold float_gt, float_lt, Qlt_bool.
      by rewrite (proj1 (Qlt_alt 0 c) Hc).
  - rewrite winner_of_numbers, <- (Qdiv_compare_1 c g Hc).
    rewrite Qlt_alt, (Qlt_alt (g / c) 1), (Qeq_alt (g / c) 1).
    rewrite <- (Qcompare_antisym 1 (g / c)).
    destruct (1 ?= g / c)%Q; simpl; repeat split; done.
Qed.

Lemma winner_agrees_with_speedup_witness :
  speedup_of (Some (Fin 2)) (Some (Fin 4)) = inr (Some (Fin (4 / 2))) ∧
  (winner_of (Some (Fin 2)) (Some (Fin 4)) = "cuOpt" ↔ (1 < 4 / 2)%Q) ∧
  (winner_of (Some (Fin 2)) (Some (Fin 4)) = "Gurobi" ↔ (4 / 2 < 1)%Q) ∧
  (winner_of (Some (Fin 2)) (Some (Fin 4)) = "Tie" ↔ (4 / 2 == 1)%Q).
Proof. apply (winner_agrees_with_speedup 2 4). reflexivity. Defined.

(** X16.  A cuOpt time of zero, or below, gives no speed-up: the guard
    of line 164 fails and nothing is divided.  The winner is decided all
    the same, so cuOpt wins against every greater Gurobi time with an
    empty speed-up. *)
Theorem zero_time_wins_without_speedup (c g : Q) :
  (c <= 0)%Q →
  speedup_of (Some (Fin c)) (Some (Fin g)) = inr None ∧
  ((c < g)%Q → winner_of (Some (Fin c)) (Some (Fin g)) = "cuOpt").
Proof.
  intros Hc. split.
  - unfold speedup_of, float_gt, float_lt, Qlt_bool.
    destruct (0 ?= c)%Q eqn:E; try done.
    apply Qlt_alt in E. exfalso. by apply (Qlt_not_le _ _ E).
  - intros Hlt. rewrite winner_of_numbers.
    by rewrite (proj1 (Qlt_alt c g) Hlt).
Qed.

Lemma zero_time_wins_without_speedup_witness :
  speedup_of (Some (Fin 0)) (Some (Fin 1)) = inr None ∧
  ((0 < 1)%Q → winner_of (Some (Fin 0)) (Some (Fin 1)) = "cuOpt").
Proof. apply (zero_time_wins_without_speedup 0 1). discriminate. Defined.

End comparison_more.

(** ** The summary: ties, success rates, the extreme cases *)

Section summary_more.
Import Py Summary SummaryMore.

Lemma count_split {A} (p q : A → bool) (l : list A) :
  Forall (λ x, xorb (p x) (q x) = true) l →
  (length (filter (λ x, p x) l) + length (filter (λ x, q x) l) = length l)%nat.
Proof.
  induction 1 as [|x l Hx _ IH]; [reflexivity|].
  rewrite !filter_cons.
  destruct (p x), (q x); try discriminate; simpl in *; lia.
Qed.

Lemma count_none {A} (p : A → bool) (l : list A) :
  Forall (λ x, p x = false) l → filter (λ x, p x) l = [].
Proof.
  induction 1 as [|x l Hx _ IH]; [reflexivity|].
  rewrite filter_cons, Hx. simpl. exact IH.
Qed.

Lemma both_solved_winners comparison_df :
  Forall (λ r, xorb (cell_eq_str (winner r) "cuOpt")
                    (cell_eq_str (winner r) "Gurobi") = true ∧
               cell_eq_str (winner r) "Tie" = false)
         (both_solved comparison_df).
Proof.
  unfold both_solved. apply Forall_forall. intros r [Hr _]%list_elem_of_filter.
  destruct (winner r) as [f|n|s]; simpl in *; try done.
  repeat case_bool_decide; subst; simpl in *; done.
Qed.

(** X17.  In the comparison figures of the summary the number of ties is
    always zero: the rows are first restricted to the winners cuOpt and
    Gurobi, so the two counts of faster problems add up to the number of
    rows and no row is left for ["Tie"]. *)
Theorem ties_are_never_counted cuopt_status gurobi_status comparison_df b :
  perf (main cuopt_status gurobi_status comparison_df) = Some b →
  ties b = Fin (inject_Z 0) ∧
  ∃ k1 k2 : nat,
    cuopt_faster b = Fin (inject_Z (Z.of_nat k1)) ∧
    gurobi_faster b = Fin (inject_Z (Z.of_nat k2)) ∧
    both_solved_len b = Fin (inject_Z (Z.of_nat (k1 + k2))).
Proof.
  unfold main, performance_of; cbn [perf]; cbv zeta.
  case_bool_decide; [|discriminate]. intros [= <-].
  cbn [ties cuopt_faster gurobi_faster both_solved_len].
  pose proof (both_solved_winners comparison_df) as Hw.
  split.
  - unfold count. rewrite count_none; [done|].
    eapply Forall_impl; [exact Hw|]. by intros r [_ ?].
  - do 2 eexists. split; [reflexivity|]. split; [reflexivity|].
    unfold len. do 3 f_equal. symmetry. apply count_split.
    eapply Forall_impl; [exact Hw|]. by intros r [? _].
Qed.

Lemma ties_are_never_counted_witness :
  ties {| both_solved_len := Fin 1; cuopt_faster := Fin 1;
          gurobi_faster := Fin 0; ties := Fin 0;
          cuopt_faster_pct := Fin (1 / 1 * 100);
          gurobi_faster_pct := Fin (0 / 1 * 100);
          ties_pct := Fin (0 / 1 * 100);
          avg_speedup := Fin ((2 + 0) / 1);
          median_speedup := Fin 2 |} = Fin (inject_Z 0).
Proof.
  exact (proj1 (ties_are_never_counted [] []
                  [ComparisonRow (CStr "cuOpt") (Fin 2);
                   ComparisonRow (CStr "Tie") (Fin 1)] _ eq_refl)).
Defined.

(** X18.  For a file that is not empty the success rate is a number
    from 0 to 100. *)
Theorem success_rate_is_percentage statuses :
  statuses ≠ [] → percentage (success_rate statuses).
Proof. intros H. unfold success_rate. by apply count_is_percentage. Qed.

Lemma success_rate_is_percentage_witness :
  percentage (success_rate [CInt 2; CInt 9]).
Proof. apply success_rate_is_percentage. discriminate. Defined.

(** X19.  When the status column was loaded as text, which is the case
    as soon as one row holds ["ERROR"], no cell equals the integer 2 and
    the success rate is zero, however many rows hold the text ["2"]. *)
Theorem text_status_rate_is_zero statuses :
  statuses ≠ [] → Forall (λ c, is_text c = true) statuses →
  ∃ q, success_rate statuses = Fin q ∧ (q == 0)%Q.
Proof.
  intros Hne Htext. unfold success_rate, count.
  rewrite count_none.
  - unfold len, np_divide. rewrite Qis_zero_of_nat
      by (destruct statuses; [done | simpl; lia]).
    eexists. split; [reflexivity|].
    unfold Qdiv. by rewrite !Qmult_0_l.
  - eapply Forall_impl; [exact Htext|]. by intros [| |] ?.
Qed.

Lemma text_status_rate_is_zero_witness :
  ∃ q, success_rate [CStr "2"; CStr "2"; CStr "ERROR"] = Fin q ∧ (q == 0)%Q.
Proof.
  apply text_status_rate_is_zero; [discriminate|].
  repeat constructor.
Defined.

End summary_more.

(** ** Across the files *)

Section across_files.
Import Py SummaryMore.

(** X21.  The label that the summary gives to a row agrees with the
    winner that the comparison stored, for two solve times that are
    numbers with cuOpt's above zero: the label is Gurobi exactly when the
    winner is Gurobi.  A tie is labelled cuOpt. *)
Theorem extreme_label_follows_winner (c g : Q) :
  (0 < c)%Q →
  (faster (Fin (g / c)) = "Gurobi" ↔
   CompareResults.winner_of (Some (Fin c)) (Some (Fin g)) = "Gurobi") ∧
  (CompareResults.winner_of (Some (Fin c)) (Some (Fin g)) = "Tie" →
   faster (Fin (g / c)) = "cuOpt").
Proof.
  intros Hc. rewrite winner_of_numbers, <- (Qdiv_compare_1 c g Hc).
  unfold faster, float_lt, Qlt_bool.
  rewrite <- (Qcompare_antisym 1 (g / c)).
  destruct (1 ?= g / c)%Q; simpl; repeat split; done.
Qed.

Lemma extreme_label_follows_winner_witness :
  (faster (Fin (1 / 2)) = "Gurobi" ↔
   CompareResults.winner_of (Some (Fin 2)) (Some (Fin 1)) = "Gurobi") ∧
  (CompareResults.winner_of (Some (Fin 2)) (Some (Fin 1)) = "Tie" →
   faster (Fin (1 / 2)) = "cuOpt").
Proof. apply (extreme_label_follows_winner 2 1). reflexivity. Defined.

End across_files.

(** ** Data frames loaded from CSV files *)

Section csv_frames.
Import Py CompareResults CompareAnalysis.

(** X22.  In a run that returns on data frames as [pd.read_csv] loads
    them, where no solve time is [None], the comparison never names the
    winner ["N/A"]: every entry is decided as cuOpt, Gurobi or Tie. *)
Theorem winner_is_never_NA to_numeric to_csv o cuopt_df gurobi_df a :
  Forall (λ r, solve_time r ≠ None) cuopt_df →
  Forall (λ r, solve_time r ≠ None) gurobi_df →
  analyze_comparison to_numeric to_csv o cuopt_df gurobi_df = inr a →
  ∀ rec, rec ∈ comparison_rows a → winner rec ∈ ["cuOpt"; "Gurobi"; "Tie"].
Proof.
  intros Hc Hg Ha rec Hrec.
  destruct (compare_one_inv _ _ _ _ (analysis_entry _ _ _ _ _ _ _ Ha Hrec))
    as (rc & rg & (b1 & a1 & -> & _) & (b2 & a2 & -> & _) & Hrest).
  destruct Hrest as (_ & _ & _ & _ & _ & _ & _ & _ & _ & _ & ->).
  apply Forall_app in Hc as [_ Hc]. apply Forall_cons in Hc as [Hc _].
  apply Forall_app in Hg as [_ Hg]. apply Forall_cons in Hg as [Hg _].
  rewrite winner_of_rule.
  destruct (solve_time rc) as [x|]; [|done].
  destruct (solve_time rg) as [y|]; [|done].
  destruct (float_lt x y); [set_solver|].
  destruct (float_lt y x); set_solver.
Qed.

Lemma winner_is_never_NA_witness :
  ∃ a,
    analyze_comparison decimal_to_numeric (inr ()) forward_order
      cuopt_failed_p1 gurobi_solved_p1 = inr a ∧
    winner <$> comparison_rows a = ["Tie"] ∧
    ∀ rec, rec ∈ comparison_rows a → winner rec ∈ ["cuOpt"; "Gurobi"; "Tie"].
Proof.
  destruct (analyze_comparison decimal_to_numeric (inr ()) forward_order
              cuopt_failed_p1 gurobi_solved_p1) as [e|a] eqn:Ha;
    [vm_compute in Ha; discriminate|].
  exists a. split; [reflexivity|]. split.
  - vm_compute in Ha. injection Ha as <-. reflexivity.
  - apply (winner_is_never_NA decimal_to_numeric (inr ()) forward_order
             cuopt_failed_p1 gurobi_solved_p1 a);
      [repeat constructor; discriminate
      | repeat constructor; discriminate | exact Ha].
Defined.

Lemma text_cell_is_not_2 c :
  text_cell c = true → Summary.cell_eq_int c 2 = false.
Proof. by destruct c as [[| |]| |]. Qed.

(** X23.  In a run that returns on two files whose status columns were
    loaded as text, no merged row has the status 2 on both sides: a text
    equals no integer, not even the text ["2"].  The figures of lines 83
    to 88 for the problems that both solvers solved optimally are
    therefore never printed. *)
Theorem optimal_figures_are_guarded to_numeric to_csv o cuopt_df gurobi_df a :
  text_column (status <$> cuopt_df) →
  text_column (status <$> gurobi_df) →
  analyze_comparison to_numeric to_csv o cuopt_df gurobi_df = inr a →
  both_optimal cuopt_df gurobi_df = [] ∧ optimal a = None.
Proof.
  intros [_ Hc] _ (_ & _ & Ho & _)%analyze_comparison_inr.
  assert (both_optimal cuopt_df gurobi_df = []) as Hnone.
  { unfold both_optimal.
    destruct (filter _ (merged_df cuopt_df gurobi_df)) as [|[l r] k] eqn:E;
      [done|].
    assert ((l, r) ∈ filter
              (λ p, Summary.cell_eq_int (status (fst p)) 2 &&
                    Summary.cell_eq_int (status (snd p)) 2)
              (merged_df cuopt_df gurobi_df)) as Hin by (rewrite E; left).
    apply list_elem_of_filter in Hin as [Hp (Hl & Hr & _)%merged_df_pairs].
    simpl in Hp. apply andb_prop_elim in Hp as [H1 H2].
    apply Forall_fmap in Hc. rewrite Forall_forall in Hc.
    specialize (Hc _ Hl). simpl in Hc.
    rewrite (text_cell_is_not_2 _ Hc) in H1. done. }
  split; [exact Hnone|].
  rewrite Ho. unfold optimal_block. by rewrite Hnone.
Qed.

Lemma optimal_figures_are_guarded_witness :
  ∃ a,
    analyze_comparison decimal_to_numeric (inr ()) forward_order
      cuopt_a_b gurobi_a_b = inr a ∧
    cuopt_optimal (cuopt_figures a) = 2%nat ∧
    gurobi_optimal (gurobi_figures a) = 2%nat ∧
    both_optimal cuopt_a_b gurobi_a_b = [] ∧ optimal a = None.
Proof.
  destruct (analyze_comparison decimal_to_numeric (inr ()) forward_order
              cuopt_a_b gurobi_a_b) as [e|a] eqn:Ha;
    [vm_compute in Ha; discriminate|].
  exists a. split; [reflexivity|].
  split; [vm_compute in Ha; injection Ha as <-; reflexivity|].
  split; [vm_compute in Ha; injection Ha as <-; reflexivity|].
  apply (optimal_figures_are_guarded decimal_to_numeric (inr ()) forward_order
           cuopt_a_b gurobi_a_b a);
    [split; [reflexivity | repeat constructor]
    | split; [reflexivity | repeat constructor]
    | exact Ha].
Defined.

End csv_frames.
